(** * QuickSight account subscription: create, read, delete

    A shallow embedding of
    [internal/service/quicksight/account_subscription.go] and the
    properties of its three lifecycle operations, its two waiters, the
    status refresh function and the finder.

    Conventions of the embedding:
    - a Go pointer is an [option]; [nil] is [None]; dereferencing [nil]
      panics, and a panic is an outcome of its own ([Panicked]);
    - a Go [error] value is an [option error]; [nil] is [None];
    - the remote service is an oracle ([Client]) that answers the three
      API calls; every call and every log line is appended to the trace
      of the run;
    - [*schema.ResourceData] is the mutable part of the state;
    - time is counted in status refreshes: a waiter's timeout is the
      number of refreshes it may make. *)

From stdpp Require Import gmap strings list fin_maps.

Local Open Scope string_scope.
Local Open Scope list_scope.
Local Open Scope nat_scope.
Local Open Scope stdpp_scope.
Set Warnings "-register-all".

(** ** Errors *)

(** The error values that flow through the file.  The remote calls return
    [ResourceNotFoundException] or any other service error; the other
    constructors are built by the provider or by the waiter. *)
Inductive error : Type :=
| ResourceNotFoundException (msg : string)
| ServiceError (code msg : string)
| NotFoundError (LastError : option error) (LastRequest : option string)
    (Retries : nat)
| EmptyResultError (LastRequest : option string)
| ErrorString (msg : string)
| UnexpectedStateError (st : string) (ExpectedState : list string)
| TimeoutError (ExpectedState : list string).

(** Modelled from the spec: [errs.IsA] lives in [internal/errs], which is
    not part of the sources at hand.
    [errs.IsA[*awstypes.ResourceNotFoundException](err)] holds when the
    error is the remote "resource not found" fault. *)
Definition IsA_ResourceNotFoundException (err : option error) : bool :=
  match err with
  | Some (ResourceNotFoundException _) => true
  | _ => false
  end.

(** Modelled from the spec: [tfresource.NotFound] lives in
    [internal/tfresource], which is not part of the sources at hand.  It is
    the "not-found/empty-result error classification utility": it holds of
    the structured not-found error and of the empty-result error, and of
    nothing else (in particular not of [nil]). *)
Definition NotFound (err : option error) : bool :=
  match err with
  | Some (NotFoundError _ _ _) => true
  | Some (EmptyResultError _) => true
  | _ => false
  end.

(** ** Types of the remote API *)

Record AccountInfo := {
  AccountName : option string;
  AccountSubscriptionStatus : option string;
  Edition : string;
  IAMIdentityCenterInstanceArn : option string;
  NotificationEmail : option string;
}.

Record DescribeAccountSubscriptionInput := {
  describe_AwsAccountId : option string;
}.

Record DescribeAccountSubscriptionOutput := {
  describe_AccountInfo : option AccountInfo;
}.

Record CreateAccountSubscriptionInput := {
  in_AwsAccountId : option string;
  in_AccountName : option string;
  in_AuthenticationMethod : string;
  in_Edition : string;
  in_NotificationEmail : option string;
  in_ActiveDirectoryName : option string;
  in_AdminGroup : option (list string);
  in_AuthorGroup : option (list string);
  in_ReaderGroup : option (list string);
  in_ContactNumber : option string;
  in_DirectoryId : option string;
  in_EmailAddress : option string;
  in_FirstName : option string;
  in_IAMIdentityCenterInstanceArn : option string;
  in_LastName : option string;
  in_Realm : option string;
}.

Record SignupResponse := {
  signup_accountName : option string;
}.

Record CreateAccountSubscriptionOutput := {
  create_SignupResponse : option SignupResponse;
}.

Record DeleteAccountSubscriptionInput := {
  delete_AwsAccountId : option string;
}.

Record DeleteAccountSubscriptionOutput := {
  delete_RequestId : option string;
}.

(** A Go call that returns a pointer and an error. *)
Definition reply (T : Type) : Type := (option T * option error)%type.

(** [*quicksight.Client]: what the remote service answers.  The answer to
    a describe call may change from one call to the next, so it also
    depends on the number of describe calls made before. *)
Record Client := {
  CreateAccountSubscription :
    CreateAccountSubscriptionInput → reply CreateAccountSubscriptionOutput;
  DescribeAccountSubscription :
    nat → DescribeAccountSubscriptionInput →
    reply DescribeAccountSubscriptionOutput;
  DeleteAccountSubscription :
    DeleteAccountSubscriptionInput → reply DeleteAccountSubscriptionOutput;
}.

(** [*conns.AWSClient]. *)
Record AWSClient := {
  AccountID : string;
  QuickSightClient : Client;
}.

(** ** The resource data and the state of a run *)

Inductive TimeoutKey := TimeoutCreate | TimeoutRead | TimeoutDelete.

(** [*schema.ResourceData].  The schema gives every attribute the type
    string or list of strings, hence the two maps. *)
Record ResourceData := {
  Id : string;
  IsNewResource : bool;
  stringAttrs : gmap string string;
  listAttrs : gmap string (list string);
  Timeout : TimeoutKey → nat;
}.

Inductive Event :=
| CreateCall (input : CreateAccountSubscriptionInput)
| DescribeCall (input : DescribeAccountSubscriptionInput)
| DeleteCall (input : DeleteAccountSubscriptionInput)
| LogPrintf (line : string).

Record State := {
  data : ResourceData;
  trace : list Event;
}.

Definition isDescribeCall (e : Event) : bool :=
  match e with DescribeCall _ => true | _ => false end.

(** Number of describe calls made so far. *)
Definition describeCount (tr : list Event) : nat :=
  length (filter (λ e, isDescribeCall e = true) tr).

(** ** Computations: state passing with panics *)

Inductive Outcome (A : Type) :=
| Returned (a : A) (st : State)
| Panicked (st : State).
Arguments Returned {A} a st.
Arguments Panicked {A} st.

Definition M (A : Type) : Type := State → Outcome A.

#[global] Instance M_ret : MRet M := λ A a st, Returned a st.
#[global] Instance M_bind : MBind M := λ A B f m st,
  match m st with
  | Returned a st' => f a st'
  | Panicked st' => Panicked st'
  end.

Definition finalState {A} (o : Outcome A) : State :=
  match o with Returned _ st => st | Panicked st => st end.

(** The value a run returns, if it returns. *)
Definition returned {A} (o : Outcome A) : option A :=
  match o with Returned a _ => Some a | Panicked _ => None end.

Definition getData : M ResourceData := λ st, Returned (data st) st.

(** The state after the events [es] were appended to the trace. *)
Definition logged (st : State) (es : list Event) : State :=
  {| data := data st; trace := trace st ++ es |}.

Definition emit (e : Event) : M unit := λ st, Returned () (logged st [e]).

(** Dereferencing a pointer, as in [p.f] or in the unary star: a nil
    pointer panics. *)
Definition deref {A} (p : option A) : M A := λ st,
  match p with
  | Some a => Returned a st
  | None => Panicked st
  end.

(** [aws.String] and [aws.ToString]. *)
Definition aws_String (s : string) : option string := Some s.
Definition aws_ToString (p : option string) : string := default "" p.

(** The state in which the resource id is [v]. *)
Definition withId (st : State) (v : string) : State :=
  {| data := {| Id := v;
                IsNewResource := IsNewResource (data st);
                stringAttrs := stringAttrs (data st);
                listAttrs := listAttrs (data st);
                Timeout := Timeout (data st) |};
     trace := trace st |}.

(** [d.SetId(v)]. *)
Definition SetId (v : string) : M unit := λ st, Returned () (withId st v).

(** [d.Set(key, v)] for a [*string]: a nil pointer removes the
    attribute. *)
Definition SetString (key : string) (v : option string) : M unit := λ st,
  Returned ()
    {| data := {| Id := Id (data st);
                  IsNewResource := IsNewResource (data st);
                  stringAttrs :=
                    match v with
                    | Some s => <[key := s]> (stringAttrs (data st))
                    | None => delete key (stringAttrs (data st))
                    end;
                  listAttrs := listAttrs (data st);
                  Timeout := Timeout (data st) |};
       trace := trace st |}.

(** [d.Get(key).(string)]: the zero value when the attribute is unset. *)
Definition GetString (d : ResourceData) (key : string) : string :=
  default "" (stringAttrs d !! key).

(** Modelled from the spec: [d.GetOk] belongs to the host framework,
    which is not part of the sources at hand.  On a string attribute [ok]
    holds when the attribute is present and non-empty. *)
Definition GetOkString (d : ResourceData) (key : string) : string * bool :=
  let v := GetString d key in (v, bool_decide (v ≠ "")).

(** Modelled from the spec: [d.GetOk] on a list attribute; [ok] holds
    when the attribute is present and the list is not empty. *)
Definition GetOkList (d : ResourceData) (key : string) :
    list string * bool :=
  let v := default [] (listAttrs d !! key) in (v, bool_decide (v ≠ [])).

(** ** Diagnostics *)

Inductive ErrAction :=
| ErrActionCreating
| ErrActionReading
| ErrActionDeleting
| ErrActionWaitingForCreation
| ErrActionWaitingForDeletion.

Record Diagnostic := {
  diag_Service : string;
  diag_Action : ErrAction;
  diag_Resource : string;
  diag_ID : string;
  diag_Cause : error;
}.

Definition Diagnostics := list Diagnostic.

Definition names_QuickSight : string := "quicksight".
Definition ResNameAccountSubscription : string := "Account Subscription".

(** Modelled from the spec: [create.AppendDiagError] lives in
    [internal/create], which is not part of the sources at hand.  It adds
    one error diagnostic that carries the service, the action, the
    resource type, the identifier and the error. *)
Definition AppendDiagError (diags : Diagnostics) (service : string)
    (action : ErrAction) (resource id : string) (gotError : error) :
    Diagnostics :=
  (diags ++ [ {| diag_Service := service; diag_Action := action;
                 diag_Resource := resource; diag_ID := id;
                 diag_Cause := gotError |} ])%list.

(** ** Status strings *)

Definition statusCreated : string := "ACCOUNT_CREATED".
Definition statusOk : string := "OK".
Definition statusSignupAttemptInProgress : string :=
  "SIGNUP_ATTEMPT_IN_PROGRESS".
Definition statusUnsuscribeInProgress : string := "UNSUBSCRIBE_IN_PROGRESS".
Definition statusUnsuscribed : string := "UNSUBSCRIBED".

(** ** The finder and the status refresh function *)

(** The remote describe call: logged, and answered by the oracle. *)
Definition callDescribe (conn : Client)
    (input : DescribeAccountSubscriptionInput) :
    M (reply DescribeAccountSubscriptionOutput) := λ st,
  Returned
    (DescribeAccountSubscription conn (describeCount (trace st)) input)
    (logged st [DescribeCall input]).

(** The trace entry of a describe call for the account [id]. *)
Definition describeOf (id : string) : Event :=
  DescribeCall {| describe_AwsAccountId := aws_String id |}.

(** The state after [k] describe calls for the account [id]. *)
Definition polled (st : State) (id : string) (k : nat) : State :=
  logged st (replicate k (describeOf id)).

Definition findAccountSubscriptionByID (conn : Client) (id : string) :
    M (reply AccountInfo) :=
  let input := {| describe_AwsAccountId := aws_String id |} in
  '(out, err) ← callDescribe conn input;
  if IsA_ResourceNotFoundException err then
    mret (None, Some (NotFoundError err (describe_AwsAccountId input) 0))
  else
    match err with
    | Some e => mret (None, Some e)
    | None =>
        match out with
        | None => mret (None, Some (EmptyResultError (describe_AwsAccountId input)))
        | Some o =>
            match describe_AccountInfo o with
            | None =>
                mret (None, Some (EmptyResultError (describe_AwsAccountId input)))
            | Some info => mret (Some info, None)
            end
        end
    end.

(** What a [retry.StateRefreshFunc] returns:
    [(interface{}, string, error)]. *)
Definition refreshed : Type :=
  (option AccountInfo * string * option error)%type.

Definition statusAccountSubscription (conn : Client) (id : string) :
    M refreshed :=
  '(out, err) ← findAccountSubscriptionByID conn id;
  if NotFound err then mret (None, "", None)
  else
    match err with
    | Some e => mret (None, "", Some e)
    | None =>
        info ← deref out;
        status ← deref (AccountSubscriptionStatus info);
        mret (Some info, status, None)
    end.

(** ** Read *)

Definition resourceAccountSubscriptionRead (meta : AWSClient) :
    M Diagnostics :=
  let diags : Diagnostics := [] in
  let conn := QuickSightClient meta in
  d ← getData;
  '(out, err) ← findAccountSubscriptionByID conn (Id d);
  if negb (IsNewResource d) && NotFound err then
    emit (LogPrintf ("[WARN] QuickSight AccountSubscription (" +:+ Id d
                       +:+ ") not found, removing from state"));;
    SetId "";;
    mret diags
  else
    unsubscribed ←
      (if negb (IsNewResource d) then
         info ← deref out;
         mret (bool_decide
                 (aws_ToString (AccountSubscriptionStatus info)
                  = statusUnsuscribed))
       else mret false);
    if (unsubscribed : bool) then
      emit (LogPrintf ("[WARN] QuickSight AccountSubscription (" +:+ Id d
                         +:+ ") unsuscribed, removing from state"));;
      SetId "";;
      mret diags
    else
      match err with
      | Some e =>
          mret (AppendDiagError diags names_QuickSight ErrActionReading
                  ResNameAccountSubscription (Id d) e)
      | None =>
          info ← deref out;
          SetString "account_name" (AccountName info);;
          SetString "edition" (Some (Edition info));;
          SetString "notification_email" (NotificationEmail info);;
          SetString "account_subscription_status"
            (AccountSubscriptionStatus info);;
          SetString "iam_identity_center_instance_arn"
            (IAMIdentityCenterInstanceArn info);;
          mret diags
      end.

(** ** The waiter *)

Module retry.

(** [retry.StateChangeConf], with the fields this file sets.  A field
    the caller leaves out has Go's zero value. *)
Record StateChangeConf := {
  Pending : list string;
  Target : list string;
  Refresh : M refreshed;
  Timeout : nat;
  NotFoundChecks : nat;
  ContinuousTargetOccurence : nat;
}.

(** The defaults of the two counters: a [NotFoundChecks] of zero stands
    for 20 and a [ContinuousTargetOccurence] of zero for 1. *)
Definition withDefaults (conf : StateChangeConf) : StateChangeConf :=
  {| Pending := Pending conf;
     Target := Target conf;
     Refresh := Refresh conf;
     Timeout := Timeout conf;
     NotFoundChecks :=
       if bool_decide (NotFoundChecks conf = 0) then 20
       else NotFoundChecks conf;
     ContinuousTargetOccurence :=
       if bool_decide (ContinuousTargetOccurence conf = 0) then 1
       else ContinuousTargetOccurence conf |}.

(** The scan of the target states: each one that is the current state
    counts one target observation, and the scan is done when the count
    reaches [continuous].  The result is: done, found, the count. *)
Fixpoint scanTarget (target : list string) (continuous : nat)
    (currentState : string) (found : bool) (targetOccurence : nat) :
    bool * bool * nat :=
  match target with
  | [] => (false, found, targetOccurence)
  | allowed :: target' =>
      if bool_decide (currentState = allowed) then
        if bool_decide (continuous = S targetOccurence) then
          (true, true, S targetOccurence)
        else scanTarget target' continuous currentState true
               (S targetOccurence)
      else scanTarget target' continuous currentState found targetOccurence
  end.

(** The scan of the pending states: the first one that is the current
    state resets the count of target observations.  The result is: found,
    the count. *)
Fixpoint scanPending (pending : list string) (currentState : string)
    (found : bool) (targetOccurence : nat) : bool * nat :=
  match pending with
  | [] => (found, targetOccurence)
  | allowed :: pending' =>
      if bool_decide (currentState = allowed) then (true, 0)
      else scanPending pending' currentState found targetOccurence
  end.

(** Modelled from the spec: the loop of the host framework's generic
    poll-until-state utility ([WaitForStateContext] of the plugin SDK),
    which is not part of the sources at hand.  The spec describes it by
    its parameters and by the two waits; where that description is silent
    or differs from the framework, the framework's loop is followed.
    [fuel] refreshes are left before the timeout.  A refresh that errors
    ends the wait with its result and its error.  A refresh that finds
    nothing counts one not-found tick and ends the wait with a not-found
    error when there are more ticks in a row than [NotFoundChecks]; it
    leaves the count of target observations alone.  (With no target
    states at all, finding nothing is the target.)  A refresh that finds
    something resets the not-found ticks; then the target states are
    scanned and after them the pending ones; a state that is neither,
    when there are pending states, ends the wait with the result and an
    unexpected-state error. *)
Fixpoint poll (conf : StateChangeConf)
    (fuel notfoundTick targetOccurence : nat) : M (reply AccountInfo) :=
  match fuel with
  | 0 => mret (None, Some (TimeoutError (Target conf)))
  | S fuel' =>
      '(res, currentState, err) ← Refresh conf;
      match err with
      | Some e => mret (res, Some e)
      | None =>
          match res with
          | None =>
              if bool_decide (length (Target conf) = 0) then
                if bool_decide
                     (ContinuousTargetOccurence conf = S targetOccurence)
                then mret (None, None)
                else poll conf fuel' notfoundTick (S targetOccurence)
              else if bool_decide (NotFoundChecks conf < S notfoundTick) then
                mret (None, Some (NotFoundError None None (S notfoundTick)))
              else poll conf fuel' (S notfoundTick) targetOccurence
          | Some info =>
              let '(done, found, occurence) :=
                scanTarget (Target conf) (ContinuousTargetOccurence conf)
                  currentState false targetOccurence in
              if done then mret (Some info, None)
              else
                let '(found, occurence) :=
                  scanPending (Pending conf) currentState found occurence in
                if negb found && bool_decide (0 < length (Pending conf)) then
                  mret (Some info,
                        Some (UnexpectedStateError currentState
                                (Target conf)))
                else poll conf fuel' 0 occurence
          end
      end
  end.

(** Modelled from the spec: [WaitForStateContext], the entry of the
    loop above: the defaults are filled in and the counters start at
    zero; the timeout is the number of refreshes. *)
Definition WaitForStateContext (conf : StateChangeConf) :
    M (reply AccountInfo) :=
  poll (withDefaults conf) (Timeout conf) 0 0.

End retry.

Definition waitAccountSubscriptionCreated (conn : Client) (id : string)
    (timeout : nat) : M (reply AccountInfo) :=
  let stateConf :=
    {| retry.Pending := [statusSignupAttemptInProgress];
       retry.Target := [statusCreated; statusOk];
       retry.Refresh := statusAccountSubscription conn id;
       retry.Timeout := timeout;
       retry.NotFoundChecks := 20;
       retry.ContinuousTargetOccurence := 2 |} in
  '(outputRaw, err) ← retry.WaitForStateContext stateConf;
  match outputRaw with
  | Some out => mret (Some out, err)
  | None => mret (None, err)
  end.

(** The source sets neither [NotFoundChecks] nor
    [ContinuousTargetOccurence] here: both have Go's zero value. *)
Definition waitAccountSubscriptionDeleted (conn : Client) (id : string)
    (timeout : nat) : M (reply AccountInfo) :=
  let stateConf :=
    {| retry.Pending :=
         [statusCreated; statusOk; statusUnsuscribeInProgress];
       retry.Target := [statusUnsuscribed];
       retry.Refresh := statusAccountSubscription conn id;
       retry.Timeout := timeout;
       retry.NotFoundChecks := 0;
       retry.ContinuousTargetOccurence := 0 |} in
  '(outputRaw, err) ← retry.WaitForStateContext stateConf;
  match outputRaw with
  | Some out => mret (Some out, err)
  | None => mret (None, err)
  end.

(** ** Delete *)

Definition callDelete (conn : Client)
    (input : DeleteAccountSubscriptionInput) :
    M (reply DeleteAccountSubscriptionOutput) := λ st,
  Returned (DeleteAccountSubscription conn input)
    (logged st [DeleteCall input]).

Definition resourceAccountSubscriptionDelete (meta : AWSClient) :
    M Diagnostics :=
  let diags : Diagnostics := [] in
  let conn := QuickSightClient meta in
  d ← getData;
  emit (LogPrintf ("[INFO] Deleting QuickSight AccountSubscription "
                     +:+ Id d));;
  '(_, err) ← callDelete conn {| delete_AwsAccountId := aws_String (Id d) |};
  if IsA_ResourceNotFoundException err then mret diags
  else
    match err with
    | Some e =>
        mret (AppendDiagError diags names_QuickSight ErrActionDeleting
                ResNameAccountSubscription (Id d) e)
    | None =>
        '(_, err) ← waitAccountSubscriptionDeleted conn (Id d)
                      (Timeout d TimeoutDelete);
        match err with
        | Some e =>
            mret (AppendDiagError diags names_QuickSight
                    ErrActionWaitingForDeletion ResNameAccountSubscription
                    (Id d) e)
        | None => mret diags
        end
    end.

(** ** Create *)

Definition names_AttrAWSAccountID : string := "aws_account_id".

(** The account id Create works with: the configured one, else the
    caller's. *)
Definition createAccountID (d : ResourceData) (meta : AWSClient) : string :=
  let awsAccountId := AccountID meta in
  let '(v, ok) := GetOkString d names_AttrAWSAccountID in
  if ok then v else awsAccountId.

(** An optional string attribute of the request: set when [d.GetOk] finds
    the attribute. *)
Definition optString (d : ResourceData) (key : string) : option string :=
  let '(v, ok) := GetOkString d key in
  if ok then aws_String v else None.

(** Modelled from the spec: [flex.ExpandStringValueList] lives in
    [internal/flex], which is not part of the sources at hand.  It turns
    the configured list into a list of strings and leaves the empty
    strings out. *)
Definition flex_ExpandStringValueList (configured : list string) :
    list string :=
  filter (λ v, v ≠ "") configured.

(** An optional list attribute of the request: set when [d.GetOk] finds
    the attribute and the list has an element. *)
Definition optList (d : ResourceData) (key : string) :
    option (list string) :=
  let '(v, ok) := GetOkList d key in
  if ok && bool_decide (0 < length v)
  then Some (flex_ExpandStringValueList v) else None.

(** The request that Create builds from the configuration. *)
Definition createInput (d : ResourceData) (meta : AWSClient) :
    CreateAccountSubscriptionInput :=
  {| in_AwsAccountId := aws_String (createAccountID d meta);
     in_AccountName := aws_String (GetString d "account_name");
     in_AuthenticationMethod := GetString d "authentication_method";
     in_Edition := GetString d "edition";
     in_NotificationEmail := aws_String (GetString d "notification_email");
     in_ActiveDirectoryName := optString d "active_directory_name";
     in_AdminGroup := optList d "admin_group";
     in_AuthorGroup := optList d "author_group";
     in_ReaderGroup := optList d "reader_group";
     in_ContactNumber := optString d "contact_number";
     in_DirectoryId := optString d "directory_id";
     in_EmailAddress := optString d "email_address";
     in_FirstName := optString d "first_name";
     in_IAMIdentityCenterInstanceArn :=
       optString d "iam_identity_center_instance_arn";
     in_LastName := optString d "last_name";
     in_Realm := optString d "realm" |}.

Definition callCreate (conn : Client)
    (input : CreateAccountSubscriptionInput) :
    M (reply CreateAccountSubscriptionOutput) := λ st,
  Returned (CreateAccountSubscription conn input)
    (logged st [CreateCall input]).

(** Whether the create output misses the signup payload:
    [out == nil || out.SignupResponse == nil]. *)
Definition emptyOutput (out : option CreateAccountSubscriptionOutput) :
    bool :=
  match out with
  | None => true
  | Some o =>
      match create_SignupResponse o with None => true | Some _ => false end
  end.

Definition resourceAccountSubscriptionCreate (meta : AWSClient) :
    M Diagnostics :=
  let diags : Diagnostics := [] in
  let conn := QuickSightClient meta in
  d ← getData;
  let awsAccountId := createAccountID d meta in
  let input := createInput d meta in
  '(out, err) ← callCreate conn input;
  match err with
  | Some e =>
      mret (AppendDiagError diags names_QuickSight ErrActionCreating
              ResNameAccountSubscription (GetString d "account_name") e)
  | None =>
      if emptyOutput out then
        mret (AppendDiagError diags names_QuickSight ErrActionCreating
                ResNameAccountSubscription (GetString d "account_name")
                (ErrorString "empty output"))
      else
        SetId awsAccountId;;
        d ← getData;
        '(_, err) ← waitAccountSubscriptionCreated conn (Id d)
                      (Timeout d TimeoutCreate);
        match err with
        | Some e =>
            mret (AppendDiagError diags names_QuickSight
                    ErrActionWaitingForCreation ResNameAccountSubscription
                    (Id d) e)
        | None =>
            readDiags ← resourceAccountSubscriptionRead meta;
            mret (diags ++ readDiags)%list
        end
  end.

(** * Notions used in the statements *)

(** Exactly one of the result and the error of a reply is non-nil. *)
Definition exactlyOne {T} (r : reply T) : Prop :=
  (∃ v, r = (Some v, None)) ∨ (∃ e, r = (None, Some e)).

(** The diagnostic of a failed read. *)
Definition ReadError (id : string) (e : error) : Diagnostic :=
  {| diag_Service := names_QuickSight; diag_Action := ErrActionReading;
     diag_Resource := ResNameAccountSubscription; diag_ID := id;
     diag_Cause := e |}.

(** The diagnostic of a failed wait for the created status. *)
Definition CreateWaitError (id : string) (e : error) : Diagnostic :=
  {| diag_Service := names_QuickSight;
     diag_Action := ErrActionWaitingForCreation;
     diag_Resource := ResNameAccountSubscription; diag_ID := id;
     diag_Cause := e |}.

(** The diagnostic of a failed create call. *)
Definition CreateError (name : string) (e : error) : Diagnostic :=
  {| diag_Service := names_QuickSight; diag_Action := ErrActionCreating;
     diag_Resource := ResNameAccountSubscription; diag_ID := name;
     diag_Cause := e |}.

(** The [k]-th status refresh after the state [st] returns [r]. *)
Definition observes (conn : Client) (id : string) (st : State) (k : nat)
    (r : refreshed) : Prop :=
  returned (statusAccountSubscription conn id (polled st id k)) = Some r.

(** The configurations of the two waits. *)
Definition createConf (conn : Client) (id : string) (timeout : nat) :
    retry.StateChangeConf :=
  {| retry.Pending := [statusSignupAttemptInProgress];
     retry.Target := [statusCreated; statusOk];
     retry.Refresh := statusAccountSubscription conn id;
     retry.Timeout := timeout;
     retry.NotFoundChecks := 20;
     retry.ContinuousTargetOccurence := 2 |}.

Definition deleteConf (conn : Client) (id : string) (timeout : nat) :
    retry.StateChangeConf :=
  {| retry.Pending :=
       [statusCreated; statusOk; statusUnsuscribeInProgress];
     retry.Target := [statusUnsuscribed];
     retry.Refresh := statusAccountSubscription conn id;
     retry.Timeout := timeout;
     retry.NotFoundChecks := 0;
     retry.ContinuousTargetOccurence := 0 |}.

(** What Create does once the create call has returned a signup
    payload: it sets the id, waits, and reads back if the wait succeeded.
    [st1] is the state in which the create call returned. *)
Definition afterSignup (meta : AWSClient) (st1 : State) (awsAccountId : string) :
    Outcome Diagnostics :=
  match
    waitAccountSubscriptionCreated (QuickSightClient meta) awsAccountId
      (Timeout (data st1) TimeoutCreate) (withId st1 awsAccountId)
  with
  | Returned (_, Some e) st3 =>
      Returned [CreateWaitError awsAccountId e] st3
  | Returned (_, None) st3 => resourceAccountSubscriptionRead meta st3
  | Panicked st3 => Panicked st3
  end.

(** Create ends with the read-back: what it returns is what Read returns
    from some state. *)
Definition endsWithReadBack (meta : AWSClient) (st : State) : Prop :=
  ∃ st1, resourceAccountSubscriptionCreate meta st
         = resourceAccountSubscriptionRead meta st1.

(** The attributes the schema requires. *)
Definition requiredKeys : gset string :=
  {[ "account_name"; "authentication_method"; "edition";
     "notification_email" ]}.

(** Create works with the account [id]: the create request carries it,
    that request is the first thing Create sends, and once the create call
    has returned a signup payload for a resource that is being created, it
    is the id of the resource. *)
Definition usesAccountID (meta : AWSClient) (st : State) (id : string) :
    Prop :=
  in_AwsAccountId (createInput (data st) meta) = Some id
  ∧ (trace st ++ [CreateCall (createInput (data st) meta)])
      `prefix_of`
      trace (finalState (resourceAccountSubscriptionCreate meta st))
  ∧ ∀ out,
      CreateAccountSubscription (QuickSightClient meta)
        (createInput (data st) meta) = (out, None) →
      emptyOutput out = false →
      IsNewResource (data st) = true →
      Id (data (finalState (resourceAccountSubscriptionCreate meta st)))
      = id.

(** * Inputs of the examples *)

Definition exampleInfo (status : option string) : AccountInfo :=
  {| AccountName := Some "acme";
     AccountSubscriptionStatus := status;
     Edition := "ENTERPRISE";
     IAMIdentityCenterInstanceArn := None;
     NotificationEmail := Some "a@b.com" |}.

(** A describe answer that carries the given status. *)
Definition found (status : string) : reply DescribeAccountSubscriptionOutput :=
  (Some {| describe_AccountInfo := Some (exampleInfo (Some status)) |}, None).

Definition accessDenied : error :=
  ServiceError "AccessDeniedException" "not authorized".

Definition signedUp : reply CreateAccountSubscriptionOutput :=
  (Some {| create_SignupResponse :=
             Some {| signup_accountName := Some "acme" |} |}, None).

(** A service whose describe call answers by the given script, whose
    create call signs up and whose delete call goes through. *)
Definition scripted
    (script : nat → reply DescribeAccountSubscriptionOutput) : Client :=
  {| CreateAccountSubscription := λ _, signedUp;
     DescribeAccountSubscription := λ n _, script n;
     DeleteAccountSubscription :=
       λ _, (Some {| delete_RequestId := None |}, None) |}.

Definition exampleMeta
    (script : nat → reply DescribeAccountSubscriptionOutput) : AWSClient :=
  {| AccountID := "111122223333"; QuickSightClient := scripted script |}.

(** The configuration of the scenario: the required attributes only. *)
Definition exampleConfig : gmap string string :=
  <["account_name" := "acme"]>
    (<["authentication_method" := "IAM_IDENTITY_CENTER"]>
       (<["edition" := "ENTERPRISE"]>
          (<["notification_email" := "a@b.com"]> ∅))).

(** A resource that exists already, and one that is being created. *)
Definition existing : State :=
  {| data := {| Id := "111122223333"; IsNewResource := false;
                stringAttrs := exampleConfig; listAttrs := ∅;
                Timeout := λ _, 600 |};
     trace := [] |}.

Definition fresh : State :=
  {| data := {| Id := ""; IsNewResource := true;
                stringAttrs := exampleConfig; listAttrs := ∅;
                Timeout := λ _, 600 |};
     trace := [] |}.

(** A service that signs up and then denies access to the describe
    call. *)
Definition deniedMeta : AWSClient := exampleMeta (λ _, (None, Some accessDenied)).

(** A configuration that names the account. *)
Definition explicitAccount : State :=
  {| data := {| Id := ""; IsNewResource := true;
                stringAttrs :=
                  <["aws_account_id" := "444455556666"]> exampleConfig;
                listAttrs := ∅;
                Timeout := λ _, 600 |};
     trace := [] |}.

(** * Further notions *)

(** Setting one string attribute of the map, as [SetString] does. *)
Definition setAttr (key : string) (v : option string)
    (m : gmap string string) : gmap string string :=
  match v with
  | Some s => <[key := s]> m
  | None => delete key m
  end.

(** The attributes after Read has stored what it fetched. *)
Definition readAttrs (info : AccountInfo) (m : gmap string string) :
    gmap string string :=
  setAttr "iam_identity_center_instance_arn" (IAMIdentityCenterInstanceArn info)
    (setAttr "account_subscription_status" (AccountSubscriptionStatus info)
       (setAttr "notification_email" (NotificationEmail info)
          (setAttr "edition" (Some (Edition info))
             (setAttr "account_name" (AccountName info) m)))).

(** The state in which the string attributes are [m]. *)
Definition withAttrs (st : State) (m : gmap string string) : State :=
  {| data := {| Id := Id (data st);
                IsNewResource := IsNewResource (data st);
                stringAttrs := m;
                listAttrs := listAttrs (data st);
                Timeout := Timeout (data st) |};
     trace := trace st |}.

(** The attributes Read writes. *)
Definition readKeys : list string :=
  ["account_name"; "edition"; "notification_email";
   "account_subscription_status"; "iam_identity_center_instance_arn"].

Definition isLog (e : Event) : bool :=
  match e with LogPrintf _ => true | _ => false end.

(** The calls to the remote service in a trace, without the log lines. *)
Definition remoteCalls (tr : list Event) : list Event :=
  filter (λ e, isLog e = false) tr.

(** The diagnostics of a failed delete call and of a failed wait for the
    unsubscribed status. *)
Definition DeleteError (id : string) (e : error) : Diagnostic :=
  {| diag_Service := names_QuickSight; diag_Action := ErrActionDeleting;
     diag_Resource := ResNameAccountSubscription; diag_ID := id;
     diag_Cause := e |}.

Definition DeleteWaitError (id : string) (e : error) : Diagnostic :=
  {| diag_Service := names_QuickSight;
     diag_Action := ErrActionWaitingForDeletion;
     diag_Resource := ResNameAccountSubscription; diag_ID := id;
     diag_Cause := e |}.

(** The four ways in which Read ends. *)
Inductive ReadOutcome (meta : AWSClient) (st : State) :
    Outcome Diagnostics → Prop :=
| ReadPanics e :
    IsNewResource (data st) = false →
    NotFound (Some e) = false →
    returned (findAccountSubscriptionByID (QuickSightClient meta)
                (Id (data st)) st) = Some (None, Some e) →
    ReadOutcome meta st (Panicked (logged st [describeOf (Id (data st))]))
| ReadFails e :
    IsNewResource (data st) = true →
    returned (findAccountSubscriptionByID (QuickSightClient meta)
                (Id (data st)) st) = Some (None, Some e) →
    ReadOutcome meta st
      (Returned [ReadError (Id (data st)) e]
         (logged st [describeOf (Id (data st))]))
| ReadClears line :
    IsNewResource (data st) = false →
    ReadOutcome meta st
      (Returned []
         (withId (logged st [describeOf (Id (data st)); LogPrintf line]) ""))
| ReadStores info :
    returned (findAccountSubscriptionByID (QuickSightClient meta)
                (Id (data st)) st) = Some (Some info, None) →
    ReadOutcome meta st
      (Returned []
         (withAttrs (logged st [describeOf (Id (data st))])
            (readAttrs info (stringAttrs (data st))))).

(** * The resource and its schema *)

Module schema.

Inductive ValueType := TypeString | TypeList.

(** The validation functions the schema names. *)
Inductive Validator :=
| ValidateAuthenticationMethodOption
| ValidateEdition
| ValidAccountID.

(** [schema.Schema], with the fields this file sets; a field that is left
    out has Go's zero value. *)
Record Schema := {
  Type_ : ValueType;
  Required : bool;
  Optional : bool;
  Computed : bool;
  ForceNew : bool;
  MinItems : nat;
  Elem : option ValueType;
  Validate : option Validator;
}.

(** [schema.ResourceTimeout], in nanoseconds. *)
Record ResourceTimeout := {
  Create : option Z;
  Read : option Z;
  Update : option Z;
  Delete : option Z;
}.

(** [schema.Resource], with the fields this file sets. *)
Record Resource := {
  CreateWithoutTimeout : option (AWSClient → M Diagnostics);
  ReadWithoutTimeout : option (AWSClient → M Diagnostics);
  UpdateWithoutTimeout : option (AWSClient → M Diagnostics);
  DeleteWithoutTimeout : option (AWSClient → M Diagnostics);
  Timeouts : ResourceTimeout;
  SchemaFunc : gmap string Schema;
}.

End schema.

Definition time_Minute : Z := 60000000000%Z.

Definition resourceAccountSubscription : schema.Resource :=
  {| schema.CreateWithoutTimeout := Some resourceAccountSubscriptionCreate;
     schema.ReadWithoutTimeout := Some resourceAccountSubscriptionRead;
     schema.UpdateWithoutTimeout := None;
     schema.DeleteWithoutTimeout := Some resourceAccountSubscriptionDelete;
     schema.Timeouts :=
       {| schema.Create := Some (10 * time_Minute)%Z;
          schema.Read := Some (10 * time_Minute)%Z;
          schema.Update := None;
          schema.Delete := Some (10 * time_Minute)%Z |};
     schema.SchemaFunc :=
       list_to_map
         [("account_name",
           {| schema.Type_ := schema.TypeString; schema.Required := true;
              schema.Optional := false; schema.Computed := false;
              schema.ForceNew := true; schema.MinItems := 0;
              schema.Elem := None; schema.Validate := None |});
          ("account_subscription_status",
           {| schema.Type_ := schema.TypeString; schema.Required := false;
              schema.Optional := false; schema.Computed := true;
              schema.ForceNew := false; schema.MinItems := 0;
              schema.Elem := None; schema.Validate := None |});
          ("active_directory_name",
           {| schema.Type_ := schema.TypeString; schema.Required := false;
              schema.Optional := true; schema.Computed := false;
              schema.ForceNew := true; schema.MinItems := 0;
              schema.Elem := None; schema.Validate := None |});
          ("admin_group",
           {| schema.Type_ := schema.TypeList; schema.Required := false;
              schema.Optional := true; schema.Computed := false;
              schema.ForceNew := true; schema.MinItems := 1;
              schema.Elem := Some schema.TypeString;
              schema.Validate := None |});
          ("authentication_method",
           {| schema.Type_ := schema.TypeString; schema.Required := true;
              schema.Optional := false; schema.Computed := false;
              schema.ForceNew := true; schema.MinItems := 0;
              schema.Elem := None;
              schema.Validate :=
                Some schema.ValidateAuthenticationMethodOption |});
          ("author_group",
           {| schema.Type_ := schema.TypeList; schema.Required := false;
              schema.Optional := true; schema.Computed := false;
              schema.ForceNew := true; schema.MinItems := 1;
              schema.Elem := Some schema.TypeString;
              schema.Validate := None |});
          (names_AttrAWSAccountID,
           {| schema.Type_ := schema.TypeString; schema.Required := false;
              schema.Optional := true; schema.Computed := true;
              schema.ForceNew := true; schema.MinItems := 0;
              schema.Elem := None;
              schema.Validate := Some schema.ValidAccountID |});
          ("contact_number",
           {| schema.Type_ := schema.TypeString; schema.Required := false;
              schema.Optional := true; schema.Computed := false;
              schema.ForceNew := true; schema.MinItems := 0;
              schema.Elem := None; schema.Validate := None |});
          ("directory_id",
           {| schema.Type_ := schema.TypeString; schema.Required := false;
              schema.Optional := true; schema.Computed := false;
              schema.ForceNew := true; schema.MinItems := 0;
              schema.Elem := None; schema.Validate := None |});
          ("edition",
           {| schema.Type_ := schema.TypeString; schema.Required := true;
              schema.Optional := false; schema.Computed := false;
              schema.ForceNew := true; schema.MinItems := 0;
              schema.Elem := None;
              schema.Validate := Some schema.ValidateEdition |});
          ("email_address",
           {| schema.Type_ := schema.TypeString; schema.Required := false;
              schema.Optional := true; schema.Computed := false;
              schema.ForceNew := true; schema.MinItems := 0;
              schema.Elem := None; schema.Validate := None |});
          ("first_name",
           {| schema.Type_ := schema.TypeString; schema.Required := false;
              schema.Optional := true; schema.Computed := false;
              schema.ForceNew := true; schema.MinItems := 0;
              schema.Elem := None; schema.Validate := None |});
          ("iam_identity_center_instance_arn",
           {| schema.Type_ := schema.TypeString; schema.Required := false;
              schema.Optional := true; schema.Computed := false;
              schema.ForceNew := true; schema.MinItems := 0;
              schema.Elem := None; schema.Validate := None |});
          ("last_name",
           {| schema.Type_ := schema.TypeString; schema.Required := false;
              schema.Optional := true; schema.Computed := false;
              schema.ForceNew := true; schema.MinItems := 0;
              schema.Elem := None; schema.Validate := None |});
          ("notification_email",
           {| schema.Type_ := schema.TypeString; schema.Required := true;
              schema.Optional := false; schema.Computed := false;
              schema.ForceNew := true; schema.MinItems := 0;
              schema.Elem := None; schema.Validate := None |});
          ("reader_group",
           {| schema.Type_ := schema.TypeList; schema.Required := false;
              schema.Optional := true; schema.Computed := false;
              schema.ForceNew := true; schema.MinItems := 1;
              schema.Elem := Some schema.TypeString;
              schema.Validate := None |});
          ("realm",
           {| schema.Type_ := schema.TypeString; schema.Required := false;
              schema.Optional := true; schema.Computed := false;
              schema.ForceNew := true; schema.MinItems := 0;
              schema.Elem := None; schema.Validate := None |})] |}.

(** The schema declares the attribute [key] with the type [t]. *)
Definition declared (t : schema.ValueType) (key : string) : Prop :=
  ∃ s, schema.SchemaFunc resourceAccountSubscription !! key = Some s
       ∧ schema.Type_ s = t.

(** The optional string attributes and the request fields they go to. *)
Definition optionalStrings :
    list (string * (CreateAccountSubscriptionInput → option string)) :=
  [("active_directory_name", in_ActiveDirectoryName);
   ("contact_number", in_ContactNumber);
   ("directory_id", in_DirectoryId);
   ("email_address", in_EmailAddress);
   ("first_name", in_FirstName);
   ("iam_identity_center_instance_arn", in_IAMIdentityCenterInstanceArn);
   ("last_name", in_LastName);
   ("realm", in_Realm)].

(** The optional list attributes and the request fields they go to. *)
Definition optionalLists :
    list (string * (CreateAccountSubscriptionInput → option (list string))) :=
  [("admin_group", in_AdminGroup);
   ("author_group", in_AuthorGroup);
   ("reader_group", in_ReaderGroup)].

(** The [i]-th refresh after [st] finds the subscription in a status
    that is pending, and no target, for the configuration [conf]. *)
Definition observesPending (conn : Client) (id : string)
    (conf : retry.StateChangeConf) (st : State) (i : nat) : Prop :=
  ∃ info s,
    observes conn id st i (Some info, s, None)
    ∧ (s ∉ retry.Target conf) ∧ (s ∈ retry.Pending conf).

(** A configuration with optional attributes: a contact number, a first
    name that is set to the empty string, an administrators group with an
    empty string among its names, and a readers group with nothing but an
    empty string. *)
Definition withOptions : ResourceData :=
  {| Id := ""; IsNewResource := true;
     stringAttrs :=
       <["contact_number" := "5550100"]>
         (<["first_name" := ""]> exampleConfig);
     listAttrs :=
       <["admin_group" := ["admins"; ""; "owners"]]>
         {[ "reader_group" := [""] ]};
     Timeout := λ _, 600 |}.

(** The required configuration with two attributes more that the schema
    does not know. *)
Definition withUndeclared : ResourceData :=
  {| Id := ""; IsNewResource := true;
     stringAttrs := <["nickname" := "acme-bi"]> exampleConfig;
     listAttrs := {[ "viewer_group" := ["viewers"] ]};
     Timeout := λ _, 600 |}.

(** What a schema entry of a resource without update operation has to
    satisfy. *)
Definition fitsNoUpdate (s : schema.Schema) : Prop :=
  (schema.Required s = true ∨ schema.Optional s = true →
   schema.ForceNew s = true)
  ∧ (schema.Required s = true → schema.Optional s = false)
  ∧ (schema.Required s = false → schema.Optional s = false →
     schema.Computed s = true)
  ∧ (0 < schema.MinItems s → schema.Type_ s = schema.TypeList).

(** The actions the diagnostics of each operation may name. *)
Definition createActions : list ErrAction :=
  [ErrActionCreating; ErrActionWaitingForCreation; ErrActionReading].

Definition deleteActions : list ErrAction :=
  [ErrActionDeleting; ErrActionWaitingForDeletion].

(** At most one diagnostic, and its action among [actions]. *)
Definition oneOf (actions : list ErrAction) (diags : Diagnostics) : Prop :=
  diags = [] ∨ ∃ diag, diags = [diag] ∧ diag_Action diag ∈ actions.

(** The configuration of the delete wait with the defaults filled in. *)
Definition deleteConfFilled (conn : Client) (id : string) (timeout : nat) :
    retry.StateChangeConf :=
  {| retry.Pending :=
       [statusCreated; statusOk; statusUnsuscribeInProgress];
     retry.Target := [statusUnsuscribed];
     retry.Refresh := statusAccountSubscription conn id;
     retry.Timeout := timeout;
     retry.NotFoundChecks := 20;
     retry.ContinuousTargetOccurence := 1 |}.


(** * Properties *)

(** ** Running the monad *)

Ltac run :=
  unfold mbind, M_bind, mret, M_ret, getData, emit, SetId, SetString,
    deref, callDescribe, callDelete, callCreate in *;
  simpl in *.

Lemma logged_logged st es1 es2 :
  logged (logged st es1) es2 = logged st (es1 ++ es2).
Proof. unfold logged; simpl. by rewrite <- app_assoc. Qed.

Lemma logged_nil st : logged st [] = st.
Proof. destruct st; unfold logged; simpl. by rewrite app_nil_r. Qed.

Lemma polled_0 st id : polled st id 0 = st.
Proof. apply logged_nil. Qed.

Lemma polled_S st id k :
  polled st id (S k) = logged (polled st id k) [describeOf id].
Proof.
  unfold polled. rewrite logged_logged. f_equal.
  change (describeOf id :: replicate k (describeOf id))
    with (replicate (S k) (describeOf id)).
  by rewrite replicate_S_end.
Qed.

Lemma polled_polled st id j k :
  polled (polled st id j) id k = polled st id (j + k).
Proof.
  unfold polled. rewrite logged_logged. by rewrite replicate_add.
Qed.

Lemma data_polled st id k : data (polled st id k) = data st.
Proof. done. Qed.

(** ** The finder *)

Lemma find_returns conn id st :
  ∃ r, findAccountSubscriptionByID conn id st
       = Returned r (logged st [describeOf id])
       ∧ exactlyOne r.
Proof.
  unfold findAccountSubscriptionByID, exactlyOne. run.
  destruct (DescribeAccountSubscription conn _ _) as [out err].
  destruct err as [e|]; simpl.
  - destruct e; simpl; eauto.
  - destruct out as [o|]; simpl; [destruct (describe_AccountInfo o)|]; eauto.
Qed.

Lemma find_state conn id st :
  finalState (findAccountSubscriptionByID conn id st)
  = logged st [describeOf id].
Proof. destruct (find_returns conn id st) as (r & -> & _). done. Qed.

Lemma find_returned conn id st r :
  returned (findAccountSubscriptionByID conn id st) = Some r →
  findAccountSubscriptionByID conn id st
  = Returned r (logged st [describeOf id]).
Proof.
  destruct (find_returns conn id st) as (r' & E & _). rewrite E. simpl.
  by intros [= ->].
Qed.

(** ** The status refresh function *)

Lemma status_state conn id st :
  finalState (statusAccountSubscription conn id st)
  = logged st [describeOf id].
Proof.
  unfold statusAccountSubscription. run.
  destruct (find_returns conn id st) as ([res err] & -> & _). simpl.
  destruct (NotFound err); simpl; [done|].
  destruct err; simpl; [done|].
  destruct res as [info|]; simpl; [|done].
  by destruct (AccountSubscriptionStatus info).
Qed.

Lemma status_returned conn id st r :
  returned (statusAccountSubscription conn id st) = Some r →
  statusAccountSubscription conn id st
  = Returned r (logged st [describeOf id]).
Proof.
  intros H. pose proof (status_state conn id st) as E.
  destruct (statusAccountSubscription conn id st); simpl in *; [|done].
  by simplify_eq.
Qed.

(** ** Read *)

(** Read on a resource that is being created: the two absence checks are
    skipped, the error check decides. *)
Lemma read_new meta st res err :
  IsNewResource (data st) = true →
  returned (findAccountSubscriptionByID (QuickSightClient meta)
              (Id (data st)) st) = Some (res, err) →
  resourceAccountSubscriptionRead meta st
  = match err with
    | Some e =>
        Returned [ReadError (Id (data st)) e]
          (logged st [describeOf (Id (data st))])
    | None =>
        (info ← deref res;
         SetString "account_name" (AccountName info);;
         SetString "edition" (Some (Edition info));;
         SetString "notification_email" (NotificationEmail info);;
         SetString "account_subscription_status"
           (AccountSubscriptionStatus info);;
         SetString "iam_identity_center_instance_arn"
           (IAMIdentityCenterInstanceArn info);;
         mret [])
          (logged st [describeOf (Id (data st))])
    end.
Proof.
  intros Hnew Hfind. apply find_returned in Hfind.
  unfold resourceAccountSubscriptionRead.
  unfold mbind at 1, M_bind at 1, getData at 1.
  unfold mbind at 1, M_bind at 1. rewrite Hfind. rewrite Hnew. simpl.
  destruct err; done.
Qed.

(** Read on an existing resource whose fetch reports not-found. *)
Lemma read_existing_not_found meta st res err :
  IsNewResource (data st) = false →
  returned (findAccountSubscriptionByID (QuickSightClient meta)
              (Id (data st)) st) = Some (res, err) →
  NotFound err = true →
  resourceAccountSubscriptionRead meta st
  = Returned []
      (withId
         (logged st
            [describeOf (Id (data st));
             LogPrintf ("[WARN] QuickSight AccountSubscription ("
                          +:+ Id (data st)
                          +:+ ") not found, removing from state")]) "").
Proof.
  intros Hnew Hfind Hnf. apply find_returned in Hfind.
  unfold resourceAccountSubscriptionRead.
  unfold mbind at 1, M_bind at 1, getData at 1.
  unfold mbind at 1, M_bind at 1. rewrite Hfind. rewrite Hnew, Hnf. simpl.
  run. by rewrite logged_logged.
Qed.

(** Read on an existing resource whose fetch fails otherwise: the
    unsubscribed check dereferences the nil result. *)
Lemma read_existing_error meta st res e :
  IsNewResource (data st) = false →
  returned (findAccountSubscriptionByID (QuickSightClient meta)
              (Id (data st)) st) = Some (res, Some e) →
  NotFound (Some e) = false →
  resourceAccountSubscriptionRead meta st
  = Panicked (logged st [describeOf (Id (data st))]).
Proof.
  intros Hnew Hfind Hnf.
  destruct (find_returns (QuickSightClient meta) (Id (data st)) st)
    as (r & E & Hone).
  rewrite E in Hfind. simpl in Hfind. injection Hfind as ->.
  destruct Hone as [(v & [=])|(e' & [= -> ->])].
  unfold resourceAccountSubscriptionRead.
  unfold mbind at 1, M_bind at 1, getData at 1.
  unfold mbind at 1, M_bind at 1. rewrite E. rewrite Hnew, Hnf. done.
Qed.

(** Read on an existing resource whose fetch succeeds. *)
Lemma read_existing_found meta st info :
  IsNewResource (data st) = false →
  returned (findAccountSubscriptionByID (QuickSightClient meta)
              (Id (data st)) st) = Some (Some info, None) →
  resourceAccountSubscriptionRead meta st
  = if bool_decide (aws_ToString (AccountSubscriptionStatus info)
                    = statusUnsuscribed)
    then
      Returned []
        (withId
           (logged st
              [describeOf (Id (data st));
               LogPrintf ("[WARN] QuickSight AccountSubscription ("
                            +:+ Id (data st)
                            +:+ ") unsuscribed, removing from state")]) "")
    else
      (SetString "account_name" (AccountName info);;
       SetString "edition" (Some (Edition info));;
       SetString "notification_email" (NotificationEmail info);;
       SetString "account_subscription_status"
         (AccountSubscriptionStatus info);;
       SetString "iam_identity_center_instance_arn"
         (IAMIdentityCenterInstanceArn info);;
       mret [])
        (logged st [describeOf (Id (data st))]).
Proof.
  intros Hnew Hfind. apply find_returned in Hfind.
  unfold resourceAccountSubscriptionRead.
  unfold mbind at 1, M_bind at 1, getData at 1.
  unfold mbind at 1, M_bind at 1. rewrite Hfind. rewrite Hnew. simpl.
  unfold mbind at 1, M_bind at 1. simpl.
  case_bool_decide; [|done].
  run. by rewrite logged_logged.
Qed.

(** Read never panics once the fetch came back without an error. *)
Lemma read_after_nil_error meta st res :
  returned (findAccountSubscriptionByID (QuickSightClient meta)
              (Id (data st)) st) = Some (res, None) →
  ∃ diags st', resourceAccountSubscriptionRead meta st = Returned diags st'.
Proof.
  intros Hfind.
  destruct (find_returns (QuickSightClient meta) (Id (data st)) st)
    as (r & E & Hone).
  assert (r = (res, None)) as -> by (rewrite E in Hfind; by simplify_eq/=).
  destruct Hone as [(info & [= ->])|(e & [=])].
  destruct (IsNewResource (data st)) eqn:Hnew.
  - rewrite (read_new _ _ _ _ Hnew Hfind). run. eauto.
  - rewrite (read_existing_found _ _ _ Hnew Hfind).
    case_bool_decide; run; eauto.
Qed.

(** The status refresh function panics only on a subscription without a
    status, never on the finder's result. *)
Lemma status_panics_only_on_nil_status conn id st st' :
  statusAccountSubscription conn id st = Panicked st' →
  ∃ info,
    returned (findAccountSubscriptionByID conn id st) = Some (Some info, None)
    ∧ AccountSubscriptionStatus info = None.
Proof.
  unfold statusAccountSubscription. unfold mbind at 1, M_bind at 1.
  destruct (find_returns conn id st) as (r & -> & Hone).
  destruct Hone as [(info & ->)|(e & ->)]; simpl.
  - run. destruct (AccountSubscriptionStatus info) eqn:Hs;
      [intros; discriminate|].
    intros _. by exists info.
  - run. destruct e; intros; discriminate.
Qed.

(** A subscription that comes back without a status makes the status
    refresh function panic. *)
Example status_without_status_panics :
  statusAccountSubscription
    (scripted (λ _, (Some {| describe_AccountInfo :=
                               Some (exampleInfo None) |}, None)))
    "111122223333" existing
  = Panicked (polled existing "111122223333" 1).
Proof. reflexivity. Qed.

(** C1: a fetch error that is not a not-found condition.  On a resource
    that is being created Read returns the read error.  On a resource that
    exists already Read does not get that far: the unsubscribed check runs
    before the error check and takes the status from the nil result, so the
    run panics and no diagnostic is returned. *)
Theorem C1_read_fetch_error meta st res e :
  returned (findAccountSubscriptionByID (QuickSightClient meta)
              (Id (data st)) st) = Some (res, Some e) →
  NotFound (Some e) = false →
  resourceAccountSubscriptionRead meta st
  = if IsNewResource (data st)
    then Returned [ReadError (Id (data st)) e]
           (logged st [describeOf (Id (data st))])
    else Panicked (logged st [describeOf (Id (data st))]).
Proof.
  intros Hfind Hnf. destruct (IsNewResource (data st)) eqn:Hnew.
  - by rewrite (read_new _ _ _ _ Hnew Hfind).
  - by apply (read_existing_error meta st res e).
Qed.

(** C1 at work: the service denies access to the describe call on an
    existing resource, and Read panics. *)
Lemma C1_witness :
  resourceAccountSubscriptionRead
    (exampleMeta (λ _, (None, Some accessDenied))) existing
  = Panicked (logged existing [describeOf "111122223333"]).
Proof.
  apply (C1_read_fetch_error
           (exampleMeta (λ _, (None, Some accessDenied))) existing None
           accessDenied); reflexivity.
Defined.

(** C7: on a resource that is not new, a fetch that succeeds with the
    status UNSUBSCRIBED makes Read clear the id and return no
    diagnostic. *)
Theorem C7_read_unsubscribed_clears_id meta st info :
  IsNewResource (data st) = false →
  returned (findAccountSubscriptionByID (QuickSightClient meta)
              (Id (data st)) st) = Some (Some info, None) →
  aws_ToString (AccountSubscriptionStatus info) = statusUnsuscribed →
  ∃ st',
    resourceAccountSubscriptionRead meta st = Returned [] st'
    ∧ Id (data st') = "".
Proof.
  intros Hnew Hfind Hst.
  rewrite (read_existing_found _ _ _ Hnew Hfind).
  rewrite bool_decide_eq_true_2 by done. eauto.
Qed.

Lemma C7_witness :
  ∃ st',
    resourceAccountSubscriptionRead
      (exampleMeta (λ _, found statusUnsuscribed)) existing
    = Returned [] st'
    ∧ Id (data st') = "".
Proof.
  apply (C7_read_unsubscribed_clears_id
           (exampleMeta (λ _, found statusUnsuscribed)) existing
           (exampleInfo (Some statusUnsuscribed))); reflexivity.
Defined.

(** C8: on a resource created in the same apply, a fetch that reports
    not-found makes Read return the read error and leave the resource data,
    the id included, as it was. *)
Theorem C8_read_new_not_found_surfaces meta st res err :
  IsNewResource (data st) = true →
  returned (findAccountSubscriptionByID (QuickSightClient meta)
              (Id (data st)) st) = Some (res, err) →
  NotFound err = true →
  ∃ e st',
    err = Some e
    ∧ resourceAccountSubscriptionRead meta st
      = Returned [ReadError (Id (data st)) e] st'
    ∧ data st' = data st.
Proof.
  intros Hnew Hfind Hnf.
  rewrite (read_new _ _ _ _ Hnew Hfind).
  destruct err as [e|]; [|done]. eauto.
Qed.

Lemma C8_witness :
  ∃ e st',
    Some (NotFoundError (Some (ResourceNotFoundException "gone"))
            (Some "111122223333") 0) = Some e
    ∧ resourceAccountSubscriptionRead
        (exampleMeta (λ _, (None, Some (ResourceNotFoundException "gone"))))
        (withId fresh "111122223333")
      = Returned [ReadError "111122223333" e] st'
    ∧ data st' = data (withId fresh "111122223333").
Proof.
  apply (C8_read_new_not_found_surfaces
           (exampleMeta (λ _, (None, Some (ResourceNotFoundException "gone"))))
           (withId fresh "111122223333") None); reflexivity.
Defined.

(** ** The waiter *)

(** Deciding a closed statement by computation. *)
Ltac computed :=
  match goal with
  | |- ?P => apply (@bool_decide_unpack P _); vm_compute; exact I
  end.

Lemma scanTarget_notin target continuous s found t :
  s ∉ target →
  retry.scanTarget target continuous s found t = (false, found, t).
Proof.
  revert found t. induction target as [|allowed target IH];
    intros found t Hs; [done|].
  apply not_elem_of_cons in Hs as [Hne Hs].
  simpl. rewrite bool_decide_eq_false_2 by done. by apply IH.
Qed.

Lemma scanTarget_in target continuous s found t :
  NoDup target → s ∈ target →
  retry.scanTarget target continuous s found t
  = if bool_decide (continuous = S t) then (true, true, S t)
    else (false, true, S t).
Proof.
  revert found t. induction target as [|allowed target IH];
    intros found t Hnd Hs; [by apply elem_of_nil in Hs|].
  apply NoDup_cons in Hnd as [Hnotin Hnd]. simpl.
  case_bool_decide as Heq.
  - subst allowed. case_bool_decide; [done|].
    by rewrite scanTarget_notin.
  - apply IH; [done|]. apply elem_of_cons in Hs as [->|Hs]; done.
Qed.

Lemma scanPending_in pending s found t :
  s ∈ pending → retry.scanPending pending s found t = (true, 0).
Proof.
  induction pending as [|allowed pending IH]; intros Hs;
    [by apply elem_of_nil in Hs|].
  simpl. case_bool_decide as Heq; [done|]. apply IH.
  apply elem_of_cons in Hs as [->|Hs]; done.
Qed.

Lemma scanPending_notin pending s found t :
  s ∉ pending → retry.scanPending pending s found t = (found, t).
Proof.
  induction pending as [|allowed pending IH]; intros Hs; [done|].
  apply not_elem_of_cons in Hs as [Hne Hs].
  simpl. rewrite bool_decide_eq_false_2 by done. by apply IH.
Qed.

Section poll.
Variables (conn : Client) (id : string) (conf : retry.StateChangeConf).
Hypothesis conf_refresh :
  retry.Refresh conf = statusAccountSubscription conn id.
Hypothesis conf_nodup : NoDup (retry.Target conf).
Hypothesis conf_target : retry.Target conf ≠ [].

(** One turn of the loop, by what the refresh returns. *)
Lemma poll_step fuel nf t st res s err :
  observes conn id st 0 (res, s, err) →
  retry.poll conf (S fuel) nf t st
  = match err with
    | Some e => Returned (res, Some e) (polled st id 1)
    | None =>
        match res with
        | None =>
            if bool_decide (retry.NotFoundChecks conf < S nf) then
              Returned (None, Some (NotFoundError None None (S nf)))
                (polled st id 1)
            else retry.poll conf fuel (S nf) t (polled st id 1)
        | Some info =>
            if bool_decide (s ∈ retry.Target conf) then
              if bool_decide (retry.ContinuousTargetOccurence conf = S t)
              then Returned (Some info, None) (polled st id 1)
              else if bool_decide (s ∈ retry.Pending conf) then
                retry.poll conf fuel 0 0 (polled st id 1)
              else retry.poll conf fuel 0 (S t) (polled st id 1)
            else if bool_decide (s ∈ retry.Pending conf) then
              retry.poll conf fuel 0 0 (polled st id 1)
            else if bool_decide (0 < length (retry.Pending conf)) then
              Returned
                (Some info,
                 Some (UnexpectedStateError s (retry.Target conf)))
                (polled st id 1)
            else retry.poll conf fuel 0 t (polled st id 1)
        end
    end.
Proof.
  unfold observes. rewrite polled_0. intros Hobs.
  apply status_returned in Hobs.
  simpl. unfold mbind at 1, M_bind at 1. rewrite conf_refresh, Hobs.
  destruct err; [done|]. destruct res as [info|].
  - destruct (decide (s ∈ retry.Target conf)) as [Ht|Ht];
      destruct (decide (s ∈ retry.Pending conf)) as [Hp|Hp].
    + rewrite (scanTarget_in _ _ _ _ _ conf_nodup Ht).
      rewrite (bool_decide_eq_true_2 _ Ht), (bool_decide_eq_true_2 _ Hp).
      case_bool_decide; [done|].
      by rewrite (scanPending_in _ _ _ _ Hp).
    + rewrite (scanTarget_in _ _ _ _ _ conf_nodup Ht).
      rewrite (bool_decide_eq_true_2 _ Ht), (bool_decide_eq_false_2 _ Hp).
      case_bool_decide; [done|].
      by rewrite (scanPending_notin _ _ _ _ Hp).
    + rewrite (scanTarget_notin _ _ _ _ _ Ht).
      rewrite (bool_decide_eq_false_2 _ Ht), (bool_decide_eq_true_2 _ Hp).
      by rewrite (scanPending_in _ _ _ _ Hp).
    + rewrite (scanTarget_notin _ _ _ _ _ Ht).
      rewrite (bool_decide_eq_false_2 _ Ht), (bool_decide_eq_false_2 _ Hp).
      rewrite (scanPending_notin _ _ _ _ Hp). by case_bool_decide.
  - rewrite bool_decide_eq_false_2
      by (destruct (retry.Target conf); [done|simpl; lia]).
    by case_bool_decide.
Qed.

(** A refresh that panics ends the loop. *)
Lemma poll_panic fuel nf t st :
  returned (statusAccountSubscription conn id st) = None →
  retry.poll conf (S fuel) nf t st = Panicked (polled st id 1).
Proof.
  intros Hobs. pose proof (status_state conn id st) as Hst.
  simpl. unfold mbind at 1, M_bind at 1. rewrite conf_refresh.
  destruct (statusAccountSubscription conn id st); simpl in *; [done|].
  by rewrite Hst.
Qed.

Lemma observes_shift st j k r :
  observes conn id (polled st id j) k r ↔ observes conn id st (j + k) r.
Proof. unfold observes. by rewrite polled_polled. Qed.

(** The loop only makes describe calls: it ends in a state that differs
    from the first one by at most [fuel] describe calls, and by one at
    least when there is fuel. *)
Lemma poll_state fuel : ∀ nf t st,
  ∃ k, k ≤ fuel ∧ (0 < fuel → 0 < k)
       ∧ finalState (retry.poll conf fuel nf t st) = polled st id k.
Proof.
  induction fuel as [|fuel IH]; intros nf t st.
  { exists 0. split_and!; [lia|lia|]. simpl. by rewrite polled_0. }
  assert (∀ nf' t', ∃ k, k ≤ S fuel ∧ (0 < S fuel → 0 < k)
            ∧ finalState (retry.poll conf fuel nf' t' (polled st id 1))
              = polled st id k) as Hrec.
  { intros nf' t'. destruct (IH nf' t' (polled st id 1)) as (k & ? & _ & E).
    exists (S k). rewrite E, polled_polled. split_and!; [lia|lia|done]. }
  assert (∃ k, k ≤ S fuel ∧ (0 < S fuel → 0 < k)
            ∧ polled st id 1 = polled st id k) as Hone.
  { exists 1. split_and!; [lia|lia|done]. }
  destruct (returned (statusAccountSubscription conn id st))
    as [[[res s] err]|] eqn:Hobs.
  - rewrite (poll_step fuel nf t st res s err)
      by (unfold observes; by rewrite polled_0).
    destruct err; [done|]. destruct res.
    + repeat case_bool_decide; auto.
    + case_bool_decide; auto.
  - by rewrite poll_panic.
Qed.


(** A run of pending observations keeps the loop going and resets both
    counters. *)
Lemma poll_pending_run k : ∀ fuel nf t st,
  (∀ i, i < k → observesPending conn id conf st i) →
  retry.poll conf (k + fuel) nf t st
  = retry.poll conf fuel (match k with 0 => nf | S _ => 0 end)
      (match k with 0 => t | S _ => 0 end) (polled st id k).
Proof.
  induction k as [|k IH]; intros fuel nf t st Hobs.
  { by rewrite polled_0. }
  change (S k + fuel) with (S (k + fuel)).
  destruct (Hobs 0) as (info & s & Ho & Hnt & Hp); [lia|].
  rewrite (poll_step _ nf t st _ _ _ Ho).
  rewrite bool_decide_eq_false_2 by done.
  rewrite bool_decide_eq_true_2 by done.
  rewrite IH.
  - rewrite polled_polled. by destruct k.
  - intros i Hi. destruct (Hobs (S i)) as (info' & s' & Ho' & ? & ?); [lia|].
    exists info', s'. split_and!; [|done..].
    by apply (observes_shift st 1 i).
Qed.


End poll.

(** ** The two waits *)

(** Reading the fields of the two configurations. *)
Ltac fields :=
  cbn [createConf deleteConf deleteConfFilled retry.Pending retry.Target
       retry.Timeout retry.NotFoundChecks retry.ContinuousTargetOccurence].

Lemma create_nodup conn id timeout :
  NoDup (retry.Target (createConf conn id timeout)).
Proof. fields. computed. Qed.

Lemma create_target conn id timeout :
  retry.Target (createConf conn id timeout) ≠ [].
Proof. done. Qed.

Lemma delete_nodup conn id timeout :
  NoDup (retry.Target (deleteConfFilled conn id timeout)).
Proof. fields. computed. Qed.

Lemma delete_target conn id timeout :
  retry.Target (deleteConfFilled conn id timeout) ≠ [].
Proof. done. Qed.

(** A target status of the create wait is none of its pending ones, and
    the same for the delete wait. *)
Lemma create_target_not_pending s :
  s ∈ [statusCreated; statusOk] → s ∉ [statusSignupAttemptInProgress].
Proof.
  intros Hs Hp. apply list_elem_of_singleton in Hp as ->.
  revert Hs. computed.
Qed.

Lemma delete_target_not_pending :
  statusUnsuscribed ∉ [statusCreated; statusOk; statusUnsuscribeInProgress].
Proof. computed. Qed.

(** The type assertion at the end of a wait changes nothing, and the
    create wait sets both counters itself. *)
Lemma wait_created_poll conn id timeout st :
  waitAccountSubscriptionCreated conn id timeout st
  = retry.poll (createConf conn id timeout) timeout 0 0 st.
Proof.
  unfold waitAccountSubscriptionCreated, retry.WaitForStateContext.
  unfold mbind, M_bind.
  change (retry.withDefaults _) with (createConf conn id timeout).
  cbn [retry.Timeout].
  destruct (retry.poll _ _ _ _ _) as [[[out|] err] st'|st']; done.
Qed.

(** The delete wait leaves both counters to the defaults. *)
Lemma delete_defaults conn id timeout :
  retry.withDefaults (deleteConf conn id timeout)
  = deleteConfFilled conn id timeout.
Proof. reflexivity. Qed.

Lemma wait_deleted_poll conn id timeout st :
  waitAccountSubscriptionDeleted conn id timeout st
  = retry.poll (deleteConfFilled conn id timeout) timeout 0 0 st.
Proof.
  unfold waitAccountSubscriptionDeleted, retry.WaitForStateContext.
  unfold mbind, M_bind.
  change (retry.withDefaults _) with (deleteConfFilled conn id timeout).
  cbn [retry.Timeout].
  destruct (retry.poll _ _ _ _ _) as [[[out|] err] st'|st']; done.
Qed.

Lemma wait_created_state conn id timeout st :
  ∃ k, k ≤ timeout ∧ (0 < timeout → 0 < k)
       ∧ finalState (waitAccountSubscriptionCreated conn id timeout st)
         = polled st id k.
Proof.
  rewrite wait_created_poll.
  apply (poll_state conn id (createConf conn id timeout) eq_refl
           (create_nodup conn id timeout) (create_target conn id timeout)).
Qed.

Lemma wait_deleted_state conn id timeout st :
  ∃ k, k ≤ timeout ∧ (0 < timeout → 0 < k)
       ∧ finalState (waitAccountSubscriptionDeleted conn id timeout st)
         = polled st id k.
Proof.
  rewrite wait_deleted_poll.
  apply (poll_state conn id (deleteConfFilled conn id timeout) eq_refl
           (delete_nodup conn id timeout) (delete_target conn id timeout)).
Qed.

(** One turn of each wait. *)
Lemma create_step conn id timeout fuel nf t st res s err :
  observes conn id st 0 (res, s, err) →
  retry.poll (createConf conn id timeout) (S fuel) nf t st
  = match err with
    | Some e => Returned (res, Some e) (polled st id 1)
    | None =>
        match res with
        | None =>
            if bool_decide (20 < S nf) then
              Returned (None, Some (NotFoundError None None (S nf)))
                (polled st id 1)
            else retry.poll (createConf conn id timeout) fuel (S nf) t
                   (polled st id 1)
        | Some info =>
            if bool_decide (s ∈ [statusCreated; statusOk]) then
              if bool_decide (2 = S t)
              then Returned (Some info, None) (polled st id 1)
              else retry.poll (createConf conn id timeout) fuel 0 (S t)
                     (polled st id 1)
            else if bool_decide (s = statusSignupAttemptInProgress) then
              retry.poll (createConf conn id timeout) fuel 0 0
                (polled st id 1)
            else
              Returned
                (Some info,
                 Some (UnexpectedStateError s [statusCreated; statusOk]))
                (polled st id 1)
        end
    end.
Proof.
  intros Ho.
  rewrite (poll_step conn id (createConf conn id timeout) eq_refl
             (create_nodup conn id timeout) (create_target conn id timeout)
             _ _ _ _ _ _ _ Ho). fields.
  destruct err; [done|]. destruct res; [|done].
  case_bool_decide as Hs.
  - rewrite (bool_decide_eq_false_2 (s ∈ [statusSignupAttemptInProgress]))
      by (by apply create_target_not_pending). done.
  - destruct (decide (s = statusSignupAttemptInProgress)) as [->|Hne].
    + by rewrite !bool_decide_eq_true_2 by set_solver.
    + rewrite (bool_decide_eq_false_2 (s ∈ [statusSignupAttemptInProgress]))
        by (by intros ?%list_elem_of_singleton).
      rewrite (bool_decide_eq_false_2 (s = _)) by done.
      by rewrite bool_decide_eq_true_2 by (simpl; lia).
Qed.

Lemma delete_step conn id timeout fuel nf t st res s err :
  observes conn id st 0 (res, s, err) →
  retry.poll (deleteConfFilled conn id timeout) (S fuel) nf t st
  = match err with
    | Some e => Returned (res, Some e) (polled st id 1)
    | None =>
        match res with
        | None =>
            if bool_decide (20 < S nf) then
              Returned (None, Some (NotFoundError None None (S nf)))
                (polled st id 1)
            else retry.poll (deleteConfFilled conn id timeout) fuel (S nf) t
                   (polled st id 1)
        | Some info =>
            if bool_decide (s = statusUnsuscribed) then
              if bool_decide (1 = S t)
              then Returned (Some info, None) (polled st id 1)
              else retry.poll (deleteConfFilled conn id timeout) fuel 0 (S t)
                     (polled st id 1)
            else if bool_decide
                      (s ∈ [statusCreated; statusOk;
                            statusUnsuscribeInProgress]) then
              retry.poll (deleteConfFilled conn id timeout) fuel 0 0
                (polled st id 1)
            else
              Returned
                (Some info, Some (UnexpectedStateError s [statusUnsuscribed]))
                (polled st id 1)
        end
    end.
Proof.
  intros Ho.
  rewrite (poll_step conn id (deleteConfFilled conn id timeout) eq_refl
             (delete_nodup conn id timeout) (delete_target conn id timeout)
             _ _ _ _ _ _ _ Ho). fields.
  destruct err; [done|]. destruct res; [|done].
  destruct (decide (s = statusUnsuscribed)) as [->|Hne].
  - rewrite (bool_decide_eq_true_2 (statusUnsuscribed ∈ [statusUnsuscribed]))
      by (by apply list_elem_of_singleton).
    rewrite (bool_decide_eq_true_2 (statusUnsuscribed = _)) by done.
    by rewrite (bool_decide_eq_false_2 _ delete_target_not_pending).
  - rewrite (bool_decide_eq_false_2 (s ∈ [statusUnsuscribed]))
      by (by intros ?%list_elem_of_singleton).
    rewrite (bool_decide_eq_false_2 (s = _)) by done.
    case_bool_decide; [done|].
    by rewrite bool_decide_eq_true_2 by (simpl; lia).
Qed.



Lemma observes_at conn id st k r :
  observes conn id st k r → observes conn id (polled st id k) 0 r.
Proof. intros Ho. apply observes_shift. by rewrite Nat.add_0_r. Qed.

(** Two target observations in a row end the create wait, whatever the
    not-found ticks are. *)
Lemma create_two_targets conn id timeout fuel nf st info1 s1 info2 s2 :
  observes conn id st 0 (Some info1, s1, None) →
  s1 ∈ [statusCreated; statusOk] →
  observes conn id st 1 (Some info2, s2, None) →
  s2 ∈ [statusCreated; statusOk] →
  retry.poll (createConf conn id timeout) (S (S fuel)) nf 0 st
  = Returned (Some info2, None) (polled st id 2).
Proof.
  intros Ho1 Hs1 Ho2 Hs2.
  rewrite (create_step _ _ _ _ _ _ _ _ _ _ Ho1).
  rewrite bool_decide_eq_true_2 by done.
  rewrite bool_decide_eq_false_2 by lia.
  rewrite (create_step _ _ _ _ _ _ _ _ _ _ (observes_at _ _ _ _ _ Ho2)).
  rewrite bool_decide_eq_true_2 by done.
  rewrite bool_decide_eq_true_2 by lia.
  by rewrite polled_polled.
Qed.










(** The scenario of the create wait: in progress twice, then created
    twice; the wait succeeds after the fourth refresh. *)
Example create_wait_scenario :
  waitAccountSubscriptionCreated
    (scripted (λ n, match n with
                    | 0 | 1 => found statusSignupAttemptInProgress
                    | _ => found statusCreated
                    end))
    "111122223333" 600 existing
  = Returned (Some (exampleInfo (Some statusCreated)), None)
      (polled existing "111122223333" 4).
Proof. reflexivity. Qed.

(** ** The refresh function on a subscription without a status *)

(** The refresh function takes the status through the pointer: after a
    fetch without an error it panics when the status is nil. *)
Lemma status_panics_on_nil_status conn id st info :
  returned (findAccountSubscriptionByID conn id st) = Some (Some info, None) →
  AccountSubscriptionStatus info = None →
  statusAccountSubscription conn id st = Panicked (polled st id 1).
Proof.
  intros Hfind%find_returned Hnil.
  unfold statusAccountSubscription. unfold mbind at 1, M_bind at 1.
  rewrite Hfind. simpl. run. by rewrite Hnil.
Qed.

(** A wait with time for one refresh panics with the refresh function. *)
Lemma create_wait_panics conn id timeout st :
  0 < timeout →
  returned (statusAccountSubscription conn id st) = None →
  waitAccountSubscriptionCreated conn id timeout st
  = Panicked (polled st id 1).
Proof.
  intros Ht Hp. rewrite wait_created_poll.
  destruct timeout as [|fuel]; [lia|].
  by apply (poll_panic conn id (createConf conn id (S fuel)) eq_refl).
Qed.

Lemma delete_wait_panics conn id timeout st :
  0 < timeout →
  returned (statusAccountSubscription conn id st) = None →
  waitAccountSubscriptionDeleted conn id timeout st
  = Panicked (polled st id 1).
Proof.
  intros Ht Hp. rewrite wait_deleted_poll.
  destruct timeout as [|fuel]; [lia|].
  by apply (poll_panic conn id (deleteConfFilled conn id (S fuel)) eq_refl).
Qed.

(** C10: the finder returns, and exactly one of its result and its error
    is non-nil: a describe answer without an error and without account
    information becomes an empty-result error, and a not-found fault
    becomes a structured not-found error that carries the fault and the
    request, with a nil result.  Read is safe after a nil error.  The
    status refresh function is not: after a nil error it dereferences the
    status of the subscription, and when the service answers with a
    subscription that has no status the pointer is nil and the function
    panics, and with it the wait for the creation and the wait for the
    deletion at their first refresh.  That is the only way the refresh
    function panics. *)
Theorem C10_refresh_dereferences_nil_status :
  (∀ conn id st,
     ∃ r, findAccountSubscriptionByID conn id st
          = Returned r (logged st [describeOf id])
          ∧ exactlyOne r)
  ∧ (∀ conn id st out,
       DescribeAccountSubscription conn (describeCount (trace st))
         {| describe_AwsAccountId := Some id |} = (out, None) →
       out ≫= describe_AccountInfo = None →
       returned (findAccountSubscriptionByID conn id st)
       = Some (None, Some (EmptyResultError (Some id))))
  ∧ (∀ conn id st out msg,
       DescribeAccountSubscription conn (describeCount (trace st))
         {| describe_AwsAccountId := Some id |}
       = (out, Some (ResourceNotFoundException msg)) →
       returned (findAccountSubscriptionByID conn id st)
       = Some (None,
               Some (NotFoundError (Some (ResourceNotFoundException msg))
                       (Some id) 0)))
  ∧ (∀ conn id st info,
       returned (findAccountSubscriptionByID conn id st)
       = Some (Some info, None) →
       AccountSubscriptionStatus info = None →
       statusAccountSubscription conn id st
       = Panicked (logged st [describeOf id])
       ∧ ∀ timeout,
           0 < timeout →
           waitAccountSubscriptionCreated conn id timeout st
           = Panicked (logged st [describeOf id])
           ∧ waitAccountSubscriptionDeleted conn id timeout st
             = Panicked (logged st [describeOf id]))
  ∧ (∀ conn id st st',
       statusAccountSubscription conn id st = Panicked st' →
       ∃ info,
         returned (findAccountSubscriptionByID conn id st)
         = Some (Some info, None)
         ∧ AccountSubscriptionStatus info = None)
  ∧ (∀ meta st res,
       returned (findAccountSubscriptionByID (QuickSightClient meta)
                   (Id (data st)) st) = Some (res, None) →
       ∃ diags st',
         resourceAccountSubscriptionRead meta st = Returned diags st').
Proof.
  split_and!.
  - apply find_returns.
  - intros conn id st out Hd Hempty.
    unfold findAccountSubscriptionByID. run. unfold aws_String. rewrite Hd.
    simpl. destruct out as [o|]; simpl in *; [|done]. by rewrite Hempty.
  - intros conn id st out msg Hd.
    unfold findAccountSubscriptionByID. run. unfold aws_String. by rewrite Hd.
  - intros conn id st info Hfind Hnil.
    pose proof (status_panics_on_nil_status conn id st info Hfind Hnil) as Hp.
    split; [exact Hp|]. intros timeout Ht. split.
    + apply create_wait_panics; [done|]. by rewrite Hp.
    + apply delete_wait_panics; [done|]. by rewrite Hp.
  - apply status_panics_only_on_nil_status.
  - apply read_after_nil_error.
Qed.

(** C10 at work: the service answers the describe call with a subscription
    that has no status.  The finder returns it without an error, the
    refresh function panics, both waits panic at their first refresh, and
    Read returns. *)
Lemma C10_witness :
  let conn :=
    scripted (λ _, (Some {| describe_AccountInfo :=
                              Some (exampleInfo None) |}, None)) in
  returned (findAccountSubscriptionByID conn "111122223333" existing)
  = Some (Some (exampleInfo None), None)
  ∧ statusAccountSubscription conn "111122223333" existing
    = Panicked (polled existing "111122223333" 1)
  ∧ waitAccountSubscriptionCreated conn "111122223333" 600 existing
    = Panicked (polled existing "111122223333" 1)
  ∧ waitAccountSubscriptionDeleted conn "111122223333" 600 existing
    = Panicked (polled existing "111122223333" 1)
  ∧ (∃ diags st',
       resourceAccountSubscriptionRead
         (exampleMeta (λ _, (Some {| describe_AccountInfo :=
                                       Some (exampleInfo None) |}, None)))
         existing = Returned diags st').
Proof.
  intros conn.
  destruct C10_refresh_dereferences_nil_status
    as (_ & _ & _ & Hst & _ & Hrd).
  destruct (Hst conn "111122223333" existing (exampleInfo None)
              eq_refl eq_refl) as [Hp Hw].
  destruct (Hw 600 ltac:(lia)) as [Hc Hd].
  split_and!; [reflexivity|exact Hp|exact Hc|exact Hd|].
  eapply (Hrd _ existing). reflexivity.
Defined.

(** ** Delete *)

(** The state in which Delete has made its call. *)
Lemma delete_call meta st :
  resourceAccountSubscriptionDelete meta st
  = let st1 :=
      logged st
        [LogPrintf ("[INFO] Deleting QuickSight AccountSubscription "
                      +:+ Id (data st));
         DeleteCall {| delete_AwsAccountId := Some (Id (data st)) |}] in
    let err :=
      (DeleteAccountSubscription (QuickSightClient meta)
         {| delete_AwsAccountId := Some (Id (data st)) |}).2 in
    if IsA_ResourceNotFoundException err then Returned [] st1
    else
      match err with
      | Some e =>
          Returned
            (AppendDiagError [] names_QuickSight ErrActionDeleting
               ResNameAccountSubscription (Id (data st)) e) st1
      | None =>
          match
            waitAccountSubscriptionDeleted (QuickSightClient meta)
              (Id (data st)) (Timeout (data st) TimeoutDelete) st1
          with
          | Returned (_, Some e) st2 =>
              Returned
                (AppendDiagError [] names_QuickSight
                   ErrActionWaitingForDeletion ResNameAccountSubscription
                   (Id (data st)) e) st2
          | Returned (_, None) st2 => Returned [] st2
          | Panicked st2 => Panicked st2
          end
      end.
Proof.
  unfold resourceAccountSubscriptionDelete. run. rewrite logged_logged.
  unfold aws_String. simpl.
  destruct (DeleteAccountSubscription _ _) as [out err]. simpl.
  destruct (IsA_ResourceNotFoundException err); [done|].
  destruct err; [done|].
  destruct (waitAccountSubscriptionDeleted _ _ _ _) as [[? [?|]] ?|?]; done.
Qed.

(** C9: when the remote delete call reports that the resource is not
    found, Delete returns no diagnostic, and all it has done is the log
    line and the delete call: no status refresh was made, so the wait for
    the unsubscribed status did not run. *)
Theorem C9_delete_not_found_is_success meta st out msg :
  DeleteAccountSubscription (QuickSightClient meta)
    {| delete_AwsAccountId := Some (Id (data st)) |}
  = (out, Some (ResourceNotFoundException msg)) →
  resourceAccountSubscriptionDelete meta st
  = Returned []
      (logged st
         [LogPrintf ("[INFO] Deleting QuickSight AccountSubscription "
                       +:+ Id (data st));
          DeleteCall {| delete_AwsAccountId := Some (Id (data st)) |}])
  ∧ describeCount
      (trace (finalState (resourceAccountSubscriptionDelete meta st)))
    = describeCount (trace st).
Proof.
  intros Hdel. rewrite delete_call, Hdel. simpl. split; [done|].
  unfold describeCount. rewrite filter_app, length_app. simpl. lia.
Qed.

Lemma C9_witness :
  resourceAccountSubscriptionDelete
    {| AccountID := "111122223333";
       QuickSightClient :=
         {| CreateAccountSubscription := λ _, signedUp;
            DescribeAccountSubscription := λ _ _, found statusOk;
            DeleteAccountSubscription :=
              λ _, (None, Some (ResourceNotFoundException "gone")) |} |}
    existing
  = Returned []
      (logged existing
         [LogPrintf
            "[INFO] Deleting QuickSight AccountSubscription 111122223333";
          DeleteCall {| delete_AwsAccountId := Some "111122223333" |}])
  ∧ describeCount
      (trace
         (finalState
            (resourceAccountSubscriptionDelete
               {| AccountID := "111122223333";
                  QuickSightClient :=
                    {| CreateAccountSubscription := λ _, signedUp;
                       DescribeAccountSubscription := λ _ _, found statusOk;
                       DeleteAccountSubscription :=
                         λ _, (None,
                               Some (ResourceNotFoundException "gone")) |} |}
               existing)))
    = describeCount (trace existing).
Proof.
  apply (C9_delete_not_found_is_success _ existing None "gone").
  reflexivity.
Defined.

(** ** Create *)

Lemma bind_ret_app {A} (m : M (list A)) st :
  (x ← m; mret ([] ++ x)) st = m st.
Proof. unfold mbind, M_bind. by destruct (m st). Qed.

(** Create, by what the create call returns. *)
Lemma create_call meta st :
  resourceAccountSubscriptionCreate meta st
  = let input := createInput (data st) meta in
    let st1 := logged st [CreateCall input] in
    let '(out, err) :=
      CreateAccountSubscription (QuickSightClient meta) input in
    match err with
    | Some e =>
        Returned [CreateError (GetString (data st) "account_name") e] st1
    | None =>
        if emptyOutput out then
          Returned
            [CreateError (GetString (data st) "account_name")
               (ErrorString "empty output")] st1
        else afterSignup meta st1 (createAccountID (data st) meta)
    end.
Proof.
  unfold resourceAccountSubscriptionCreate.
  unfold mbind at 1, M_bind at 1, getData at 1.
  unfold mbind at 1, M_bind at 1, callCreate at 1.
  destruct (CreateAccountSubscription _ _) as [out err]. simpl.
  destruct err; [done|]. destruct (emptyOutput out); [done|].
  unfold afterSignup.
  unfold mbind at 1, M_bind at 1, SetId at 1.
  unfold mbind at 1, M_bind at 1, getData at 1.
  unfold mbind at 1, M_bind at 1. simpl.
  destruct (waitAccountSubscriptionCreated _ _ _ _) as [[? [?|]] ?|?];
    [done| |done].
  apply bind_ret_app.
Qed.

(** What Read returns: nothing, or one read error. *)
Lemma read_diags meta st diags st' :
  resourceAccountSubscriptionRead meta st = Returned diags st' →
  diags = [] ∨ ∃ e, diags = [ReadError (Id (data st)) e].
Proof.
  destruct (find_returns (QuickSightClient meta) (Id (data st)) st)
    as ([res err] & E & Hone).
  assert (returned (findAccountSubscriptionByID (QuickSightClient meta)
                      (Id (data st)) st) = Some (res, err)) as Hfind
    by (by rewrite E).
  destruct (IsNewResource (data st)) eqn:Hnew.
  - rewrite (read_new _ _ _ _ Hnew Hfind).
    destruct err as [e|]; [intros [= <- _]; eauto|].
    destruct res; run; intros [= <- _]; eauto.
  - destruct Hone as [(info & [= -> ->])|(e & [= -> ->])].
    + rewrite (read_existing_found _ _ _ Hnew Hfind).
      case_bool_decide; run; intros [= <- _]; eauto.
    + destruct (NotFound (Some e)) eqn:Hnf.
      * rewrite (read_existing_not_found _ _ _ _ Hnew Hfind Hnf).
        intros [= <- _]; eauto.
      * by rewrite (read_existing_error _ _ _ _ Hnew Hfind Hnf).
Qed.

(** Read only appends to the trace, starting with its describe call. *)
Lemma read_trace meta st :
  (trace st ++ [describeOf (Id (data st))])
    `prefix_of` trace (finalState (resourceAccountSubscriptionRead meta st)).
Proof.
  destruct (find_returns (QuickSightClient meta) (Id (data st)) st)
    as ([res err] & E & Hone).
  assert (returned (findAccountSubscriptionByID (QuickSightClient meta)
                      (Id (data st)) st) = Some (res, err)) as Hfind
    by (by rewrite E).
  destruct (IsNewResource (data st)) eqn:Hnew.
  - rewrite (read_new _ _ _ _ Hnew Hfind).
    destruct err as [e|]; [done|]. by destruct res.
  - destruct Hone as [(info & [= -> ->])|(e & [= -> ->])].
    + rewrite (read_existing_found _ _ _ Hnew Hfind).
      case_bool_decide; simpl; [|done].
      eexists. by rewrite <- app_assoc.
    + destruct (NotFound (Some e)) eqn:Hnf.
      * rewrite (read_existing_not_found _ _ _ _ Hnew Hfind Hnf). simpl.
        eexists. by rewrite <- app_assoc.
      * by rewrite (read_existing_error _ _ _ _ Hnew Hfind Hnf).
Qed.

(** On a resource that is being created Read keeps the id. *)
Lemma read_new_keeps_id meta st :
  IsNewResource (data st) = true →
  Id (data (finalState (resourceAccountSubscriptionRead meta st)))
  = Id (data st).
Proof.
  intros Hnew.
  destruct (find_returns (QuickSightClient meta) (Id (data st)) st)
    as ([res err] & E & Hone).
  rewrite (read_new meta st res err Hnew) by (by rewrite E).
  destruct err as [e|]; [done|]. by destruct res.
Qed.

(** After the signup the id is the account id, whatever the wait does. *)
Lemma after_signup_id meta st1 awsAccountId :
  IsNewResource (data st1) = true →
  Id (data (finalState (afterSignup meta st1 awsAccountId))) = awsAccountId.
Proof.
  intros Hnew. unfold afterSignup.
  destruct (wait_created_state (QuickSightClient meta) awsAccountId
              (Timeout (data st1) TimeoutCreate) (withId st1 awsAccountId))
    as (k & _ & _ & E).
  destruct (waitAccountSubscriptionCreated _ _ _ _) as [[? [?|]] st3|st3];
    simpl in E; subst st3; try done.
  by rewrite read_new_keeps_id.
Qed.

Lemma after_signup_trace meta st1 awsAccountId :
  trace st1 `prefix_of` trace (finalState (afterSignup meta st1 awsAccountId)).
Proof.
  unfold afterSignup.
  destruct (wait_created_state (QuickSightClient meta) awsAccountId
              (Timeout (data st1) TimeoutCreate) (withId st1 awsAccountId))
    as (k & _ & _ & E).
  destruct (waitAccountSubscriptionCreated _ _ _ _) as [[? [?|]] st3|st3];
    simpl in E; subst st3; simpl; try by apply prefix_app_r.
  etrans; [|apply read_trace]. simpl.
  rewrite <- app_assoc. by apply prefix_app_r.
Qed.

(** The first thing Create does is the create call, with the request built
    from the configuration. *)
Lemma create_trace meta st :
  (trace st ++ [CreateCall (createInput (data st) meta)])
    `prefix_of` trace (finalState (resourceAccountSubscriptionCreate meta st)).
Proof.
  rewrite create_call. simpl.
  destruct (CreateAccountSubscription _ _) as [out [e|]]; [done|].
  destruct (emptyOutput out); [done|].
  apply (after_signup_trace meta (logged st _)).
Qed.

(** When the create call returns a signup payload for a resource that is
    being created, the id is the account id from then on. *)
Lemma create_id meta st out :
  CreateAccountSubscription (QuickSightClient meta)
    (createInput (data st) meta) = (out, None) →
  emptyOutput out = false →
  IsNewResource (data st) = true →
  Id (data (finalState (resourceAccountSubscriptionCreate meta st)))
  = createAccountID (data st) meta.
Proof.
  intros Hc He Hnew. rewrite create_call. simpl. rewrite Hc, He.
  by apply after_signup_id.
Qed.

(** C3, as stated, fails: the service signs up and then denies access to
    the describe call, so the wait fails on its first refresh; Create
    returns the wait error in the state the wait ended in, and what it
    returns is not what Read returns from any state. *)
Lemma C3_counterexample :
  resourceAccountSubscriptionCreate deniedMeta fresh
  = Returned [CreateWaitError "111122223333" accessDenied]
      (polled
         (withId
            (logged fresh [CreateCall (createInput (data fresh) deniedMeta)])
            "111122223333")
         "111122223333" 1)
  ∧ ¬ endsWithReadBack deniedMeta fresh.
Proof.
  assert (resourceAccountSubscriptionCreate deniedMeta fresh
          = Returned [CreateWaitError "111122223333" accessDenied]
              (polled
                 (withId
                    (logged fresh
                       [CreateCall (createInput (data fresh) deniedMeta)])
                    "111122223333")
                 "111122223333" 1)) as E by (vm_compute; reflexivity).
  split; [done|]. intros [st1 H]. rewrite E in H. symmetry in H.
  apply read_diags in H. destruct H as [[=]|(e & [=])].
Qed.

(** C3, amended: when the create call has returned a signup payload,
    Create ends with the read-back if the wait for the created status
    succeeds: it then returns what Read returns from the state the wait
    ended in.  If the wait fails, Create returns the wait error in that
    state, and there is no read-back. *)
Theorem C3_read_back_after_successful_wait meta st out r err st3 :
  CreateAccountSubscription (QuickSightClient meta)
    (createInput (data st) meta) = (out, None) →
  emptyOutput out = false →
  waitAccountSubscriptionCreated (QuickSightClient meta)
    (createAccountID (data st) meta) (Timeout (data st) TimeoutCreate)
    (withId (logged st [CreateCall (createInput (data st) meta)])
       (createAccountID (data st) meta))
  = Returned (r, err) st3 →
  match err with
  | None =>
      resourceAccountSubscriptionCreate meta st
      = resourceAccountSubscriptionRead meta st3
      ∧ endsWithReadBack meta st
  | Some e =>
      resourceAccountSubscriptionCreate meta st
      = Returned [CreateWaitError (createAccountID (data st) meta) e] st3
      ∧ ¬ endsWithReadBack meta st
  end.
Proof.
  intros Hc He Hw.
  assert (resourceAccountSubscriptionCreate meta st
          = match err with
            | None => resourceAccountSubscriptionRead meta st3
            | Some e =>
                Returned
                  [CreateWaitError (createAccountID (data st) meta) e] st3
            end) as E.
  { rewrite create_call. simpl. rewrite Hc, He. unfold afterSignup.
    simpl. by rewrite Hw. }
  destruct err as [e|].
  - split; [done|]. intros [st1 H]. rewrite E in H. symmetry in H.
    apply read_diags in H. destruct H as [[=]|(e' & [=])].
  - split; [done|]. by exists st3.
Qed.

Lemma C3_witness :
  resourceAccountSubscriptionCreate (exampleMeta (λ _, found statusOk)) fresh
  = resourceAccountSubscriptionRead (exampleMeta (λ _, found statusOk))
      (polled
         (withId
            (logged fresh
               [CreateCall
                  (createInput (data fresh)
                     (exampleMeta (λ _, found statusOk)))])
            "111122223333")
         "111122223333" 2)
  ∧ endsWithReadBack (exampleMeta (λ _, found statusOk)) fresh.
Proof.
  apply (C3_read_back_after_successful_wait
           (exampleMeta (λ _, found statusOk)) fresh
           (Some {| create_SignupResponse :=
                      Some {| signup_accountName := Some "acme" |} |})
           (Some (exampleInfo (Some statusOk))) None).
  - reflexivity.
  - reflexivity.
  - vm_compute. reflexivity.
Defined.

(** ** The create request *)

Lemma createAccountID_set d meta v :
  stringAttrs d !! names_AttrAWSAccountID = Some v → v ≠ "" →
  createAccountID d meta = v.
Proof.
  intros Hv Hne. unfold createAccountID, GetOkString, GetString.
  rewrite Hv. cbn [default from_option id]. by rewrite bool_decide_eq_true_2.
Qed.

Lemma createAccountID_unset d meta :
  stringAttrs d !! names_AttrAWSAccountID = None →
  createAccountID d meta = AccountID meta.
Proof.
  intros Hv. unfold createAccountID, GetOkString, GetString.
  rewrite Hv. cbn [default from_option id]. by rewrite bool_decide_eq_false_2 by naive_solver.
Qed.

Lemma optString_unset d key :
  stringAttrs d !! key = None → optString d key = None.
Proof.
  intros Hv. unfold optString, GetOkString, GetString.
  rewrite Hv. cbn [default from_option id]. by rewrite bool_decide_eq_false_2 by naive_solver.
Qed.

Lemma optList_unset d key :
  listAttrs d !! key = None → optList d key = None.
Proof.
  intros Hv. unfold optList, GetOkList.
  rewrite Hv. cbn [default from_option id]. by rewrite bool_decide_eq_false_2 by naive_solver.
Qed.

Lemma uses_created_id meta st :
  usesAccountID meta st (createAccountID (data st) meta).
Proof.
  unfold usesAccountID. split_and!.
  - done.
  - apply create_trace.
  - apply create_id.
Qed.

(** C4: a configuration that gives a non-empty aws_account_id makes Create
    put that id into the create request and make it the resource id; a
    configuration without the attribute makes Create use the account id of
    the caller for both. *)
Theorem C4_account_id :
  (∀ meta st v,
     stringAttrs (data st) !! names_AttrAWSAccountID = Some v → v ≠ "" →
     usesAccountID meta st v)
  ∧ (∀ meta st,
       stringAttrs (data st) !! names_AttrAWSAccountID = None →
       usesAccountID meta st (AccountID meta)).
Proof.
  split.
  - intros meta st v Hv Hne.
    rewrite <- (createAccountID_set (data st) meta v Hv Hne).
    apply uses_created_id.
  - intros meta st Hv.
    rewrite <- (createAccountID_unset (data st) meta Hv).
    apply uses_created_id.
Qed.

Lemma C4_witness :
  usesAccountID (exampleMeta (λ _, found statusOk)) explicitAccount
    "444455556666"
  ∧ usesAccountID (exampleMeta (λ _, found statusOk)) fresh "111122223333".
Proof.
  destruct C4_account_id as [Hset Hunset]. split.
  - apply Hset; [reflexivity|discriminate].
  - apply (Hunset (exampleMeta (λ _, found statusOk)) fresh). reflexivity.
Defined.

(** An attribute that is not among the required ones. *)
Ltac optional :=
  match goal with
  | |- ?P => apply (@bool_decide_unpack P _); vm_compute; exact I
  end.

(** C5: when only the required attributes are set, the create request
    holds the account id of the caller and the four required attributes,
    and every optional field is left out (nil, neither an empty string nor
    an empty list); that request is what Create sends. *)
Theorem C5_required_only meta st :
  dom (stringAttrs (data st)) ⊆ requiredKeys →
  dom (listAttrs (data st)) ⊆ requiredKeys →
  createInput (data st) meta
  = {| in_AwsAccountId := Some (AccountID meta);
       in_AccountName := Some (GetString (data st) "account_name");
       in_AuthenticationMethod :=
         GetString (data st) "authentication_method";
       in_Edition := GetString (data st) "edition";
       in_NotificationEmail :=
         Some (GetString (data st) "notification_email");
       in_ActiveDirectoryName := None;
       in_AdminGroup := None;
       in_AuthorGroup := None;
       in_ReaderGroup := None;
       in_ContactNumber := None;
       in_DirectoryId := None;
       in_EmailAddress := None;
       in_FirstName := None;
       in_IAMIdentityCenterInstanceArn := None;
       in_LastName := None;
       in_Realm := None |}
  ∧ (trace st ++ [CreateCall (createInput (data st) meta)])
      `prefix_of`
      trace (finalState (resourceAccountSubscriptionCreate meta st)).
Proof.
  intros Hs Hl. split; [|apply create_trace].
  assert (∀ key, key ∉ requiredKeys → stringAttrs (data st) !! key = None)
    as Hstr by (intros key Hk; apply not_elem_of_dom; set_solver).
  assert (∀ key, key ∉ requiredKeys → listAttrs (data st) !! key = None)
    as Hlst by (intros key Hk; apply not_elem_of_dom; set_solver).
  unfold createInput.
  rewrite createAccountID_unset by (apply Hstr; optional).
  rewrite !optString_unset by (apply Hstr; optional).
  rewrite !optList_unset by (apply Hlst; optional).
  done.
Qed.

(** C5 at work, on the scenario: account name acme, authentication method
    IAM_IDENTITY_CENTER, edition ENTERPRISE, notification email a@b.com and
    no account id. *)
Lemma C5_witness :
  createInput (data fresh) (exampleMeta (λ _, found statusOk))
  = {| in_AwsAccountId := Some "111122223333";
       in_AccountName := Some "acme";
       in_AuthenticationMethod := "IAM_IDENTITY_CENTER";
       in_Edition := "ENTERPRISE";
       in_NotificationEmail := Some "a@b.com";
       in_ActiveDirectoryName := None;
       in_AdminGroup := None;
       in_AuthorGroup := None;
       in_ReaderGroup := None;
       in_ContactNumber := None;
       in_DirectoryId := None;
       in_EmailAddress := None;
       in_FirstName := None;
       in_IAMIdentityCenterInstanceArn := None;
       in_LastName := None;
       in_Realm := None |}
  ∧ (trace fresh
       ++ [CreateCall
             (createInput (data fresh) (exampleMeta (λ _, found statusOk)))])
      `prefix_of`
      trace (finalState
               (resourceAccountSubscriptionCreate
                  (exampleMeta (λ _, found statusOk)) fresh)).
Proof.
  apply (C5_required_only (exampleMeta (λ _, found statusOk)) fresh).
  - optional.
  - optional.
Defined.

(** C6: when the create call returns an error, or returns no error but an
    output that is nil or lacks the signup payload, Create returns one
    create error and leaves the resource data, the id included, as it was:
    all it has done is the create call.  The id is set only when the
    signup payload is there, and before the wait: the wait starts in the
    state whose id is the account id. *)
Theorem C6_create_failure meta st out err :
  CreateAccountSubscription (QuickSightClient meta)
    (createInput (data st) meta) = (out, err) →
  resourceAccountSubscriptionCreate meta st
  = match err with
    | Some e =>
        Returned [CreateError (GetString (data st) "account_name") e]
          (logged st [CreateCall (createInput (data st) meta)])
    | None =>
        if emptyOutput out then
          Returned
            [CreateError (GetString (data st) "account_name")
               (ErrorString "empty output")]
            (logged st [CreateCall (createInput (data st) meta)])
        else
          match
            waitAccountSubscriptionCreated (QuickSightClient meta)
              (createAccountID (data st) meta)
              (Timeout (data st) TimeoutCreate)
              (withId (logged st [CreateCall (createInput (data st) meta)])
                 (createAccountID (data st) meta))
          with
          | Returned (_, Some e) st3 =>
              Returned
                [CreateWaitError (createAccountID (data st) meta) e] st3
          | Returned (_, None) st3 =>
              resourceAccountSubscriptionRead meta st3
          | Panicked st3 => Panicked st3
          end
    end
  ∧ (is_Some err ∨ emptyOutput out = true →
     data (finalState (resourceAccountSubscriptionCreate meta st))
     = data st).
Proof.
  intros Hc. rewrite create_call. simpl. rewrite Hc.
  split; [done|].
  intros [[e ->]|He]; [done|]. rewrite He. by destruct err.
Qed.

(** C6 at work: a create call that is denied, and one that returns an
    output without the signup payload. *)
Lemma C6_witness :
  (resourceAccountSubscriptionCreate
     {| AccountID := "111122223333";
        QuickSightClient :=
          {| CreateAccountSubscription := λ _, (None, Some accessDenied);
             DescribeAccountSubscription := λ _ _, found statusOk;
             DeleteAccountSubscription := λ _, (None, None) |} |}
     fresh
   = Returned [CreateError "acme" accessDenied]
       (logged fresh
          [CreateCall (createInput (data fresh) (exampleMeta (λ _, found statusOk)))]))
  ∧ (resourceAccountSubscriptionCreate
       {| AccountID := "111122223333";
          QuickSightClient :=
            {| CreateAccountSubscription :=
                 λ _, (Some {| create_SignupResponse := None |}, None);
               DescribeAccountSubscription := λ _ _, found statusOk;
               DeleteAccountSubscription := λ _, (None, None) |} |}
       fresh
     = Returned [CreateError "acme" (ErrorString "empty output")]
         (logged fresh
            [CreateCall
               (createInput (data fresh) (exampleMeta (λ _, found statusOk)))])).
Proof.
  split.
  - apply (C6_create_failure
             {| AccountID := "111122223333";
                QuickSightClient :=
                  {| CreateAccountSubscription :=
                       λ _, (None, Some accessDenied);
                     DescribeAccountSubscription := λ _ _, found statusOk;
                     DeleteAccountSubscription := λ _, (None, None) |} |}
             fresh None (Some accessDenied)).
    reflexivity.
  - apply (C6_create_failure
             {| AccountID := "111122223333";
                QuickSightClient :=
                  {| CreateAccountSubscription :=
                       λ _, (Some {| create_SignupResponse := None |}, None);
                     DescribeAccountSubscription := λ _ _, found statusOk;
                     DeleteAccountSubscription := λ _, (None, None) |} |}
             fresh (Some {| create_SignupResponse := None |}) None).
    reflexivity.
Defined.

(** * Further properties *)

(** ** Attributes *)

Lemma lookup_setAttr key v (m : gmap string string) key' :
  setAttr key v m !! key' = if decide (key = key') then v else m !! key'.
Proof.
  unfold setAttr. destruct v; case_decide; simplify_map_eq; done.
Qed.

Lemma SetString_run key v st :
  SetString key v st
  = Returned () (withAttrs st (setAttr key v (stringAttrs (data st)))).
Proof. done. Qed.

(** What Read stores: the five attributes it writes hold what was
    fetched, the others are as before. *)
Lemma lookup_readAttrs info (m : gmap string string) key :
  readAttrs info m !! key
  = if decide (key = "account_name") then AccountName info
    else if decide (key = "edition") then Some (Edition info)
    else if decide (key = "notification_email") then NotificationEmail info
    else if decide (key = "account_subscription_status")
         then AccountSubscriptionStatus info
    else if decide (key = "iam_identity_center_instance_arn")
         then IAMIdentityCenterInstanceArn info
    else m !! key.
Proof.
  unfold readAttrs. rewrite !lookup_setAttr.
  repeat case_decide; subst; done.
Qed.

(** The five writes of Read, run in a row. *)
Lemma read_store info st :
  (SetString "account_name" (AccountName info);;
   SetString "edition" (Some (Edition info));;
   SetString "notification_email" (NotificationEmail info);;
   SetString "account_subscription_status" (AccountSubscriptionStatus info);;
   SetString "iam_identity_center_instance_arn"
     (IAMIdentityCenterInstanceArn info);;
   mret ([] : Diagnostics)) st
  = Returned [] (withAttrs st (readAttrs info (stringAttrs (data st)))).
Proof. done. Qed.

(** Read, when the fetch succeeds and the resource is not taken for
    unsubscribed. *)
Lemma read_success meta st info :
  returned (findAccountSubscriptionByID (QuickSightClient meta)
              (Id (data st)) st) = Some (Some info, None) →
  IsNewResource (data st) = true
  ∨ aws_ToString (AccountSubscriptionStatus info) ≠ statusUnsuscribed →
  resourceAccountSubscriptionRead meta st
  = Returned []
      (withAttrs (logged st [describeOf (Id (data st))])
         (readAttrs info (stringAttrs (data st)))).
Proof.
  intros Hfind Hok. destruct (IsNewResource (data st)) eqn:Hnew.
  - rewrite (read_new _ _ _ _ Hnew Hfind).
    exact (read_store info (logged st [describeOf (Id (data st))])).
  - destruct Hok as [|Hok]; [done|].
    rewrite (read_existing_found _ _ _ Hnew Hfind).
    rewrite bool_decide_eq_false_2 by done.
    exact (read_store info (logged st [describeOf (Id (data st))])).
Qed.

(** ** Traces *)

Lemma remoteCalls_app tr1 tr2 :
  remoteCalls (tr1 ++ tr2) = remoteCalls tr1 ++ remoteCalls tr2.
Proof. apply filter_app. Qed.

Lemma remoteCalls_replicate_describe id k :
  remoteCalls (replicate k (describeOf id)) = replicate k (describeOf id).
Proof.
  induction k as [|k IH]; [done|]. simpl. unfold remoteCalls in *.
  rewrite filter_cons_True by done. by rewrite IH.
Qed.

Lemma describeCount_app tr1 tr2 :
  describeCount (tr1 ++ tr2) = describeCount tr1 + describeCount tr2.
Proof. unfold describeCount. by rewrite filter_app, length_app. Qed.

(** ** Read, case by case *)

Lemma read_cases meta st :
  ReadOutcome meta st (resourceAccountSubscriptionRead meta st).
Proof.
  destruct (find_returns (QuickSightClient meta) (Id (data st)) st)
    as ([res err] & E & Hone).
  assert (returned (findAccountSubscriptionByID (QuickSightClient meta)
                      (Id (data st)) st) = Some (res, err)) as Hfind
    by (by rewrite E).
  destruct Hone as [(info & [= -> ->])|(e & [= -> ->])].
  - destruct (IsNewResource (data st)) eqn:Hnew.
    + rewrite (read_success meta st info Hfind) by auto.
      by apply ReadStores.
    + destruct (decide (aws_ToString (AccountSubscriptionStatus info)
                        = statusUnsuscribed)) as [Hu|Hu].
      * rewrite (read_existing_found _ _ _ Hnew Hfind).
        rewrite bool_decide_eq_true_2 by done. by apply ReadClears.
      * rewrite (read_success meta st info Hfind) by auto.
        by apply ReadStores.
  - destruct (IsNewResource (data st)) eqn:Hnew.
    + rewrite (read_new _ _ _ _ Hnew Hfind). by apply ReadFails.
    + destruct (NotFound (Some e)) eqn:Hnf.
      * rewrite (read_existing_not_found _ _ _ _ Hnew Hfind Hnf).
        by apply ReadClears.
      * rewrite (read_existing_error _ _ _ _ Hnew Hfind Hnf).
        by apply (ReadPanics meta st e).
Qed.

(** ** Read: further properties *)

Lemma read_calls meta st :
  remoteCalls (trace (finalState (resourceAccountSubscriptionRead meta st)))
  = remoteCalls (trace st) ++ [describeOf (Id (data st))].
Proof.
  destruct (read_cases meta st); simpl; by rewrite remoteCalls_app.
Qed.

(** X1: whatever the service answers, Read makes exactly one remote call:
    a describe call for the id of the resource. *)
Theorem X1_read_remote_calls meta st :
  remoteCalls (trace (finalState (resourceAccountSubscriptionRead meta st)))
  = remoteCalls (trace st) ++ [describeOf (Id (data st))].
Proof. apply read_calls. Qed.

(** X2: a read that returns a diagnostic returns exactly one, the read
    error for the id of the resource with the error of the fetch, and
    leaves the resource data untouched. *)
Theorem X2_read_failure_keeps_data meta st diags st' :
  resourceAccountSubscriptionRead meta st = Returned diags st' →
  diags ≠ [] →
  data st' = data st
  ∧ ∃ e,
      diags = [ReadError (Id (data st)) e]
      ∧ returned (findAccountSubscriptionByID (QuickSightClient meta)
                    (Id (data st)) st) = Some (None, Some e).
Proof.
  intros Hrun Hne. destruct (read_cases meta st); simplify_eq.
  split; [done|]. eauto.
Qed.

Lemma X2_witness :
  data (logged (withId fresh "111122223333") [describeOf "111122223333"])
  = data (withId fresh "111122223333")
  ∧ ∃ e,
      [ReadError "111122223333" accessDenied]
      = [ReadError (Id (data (withId fresh "111122223333"))) e]
      ∧ returned (findAccountSubscriptionByID (QuickSightClient deniedMeta)
                    (Id (data (withId fresh "111122223333")))
                    (withId fresh "111122223333"))
        = Some (None, Some e).
Proof.
  apply (X2_read_failure_keeps_data deniedMeta (withId fresh "111122223333")
           [ReadError "111122223333" accessDenied]).
  - reflexivity.
  - discriminate.
Defined.

Lemma lookup_readAttrs_other info (m : gmap string string) key :
  key ∉ readKeys → readAttrs info m !! key = m !! key.
Proof.
  intros Hkey. rewrite lookup_readAttrs.
  unfold readKeys in Hkey. repeat case_decide; set_solver.
Qed.

(** Read leaves alone every string attribute that it does not write. *)
Lemma read_other_attrs meta st key :
  key ∉ readKeys →
  stringAttrs (data (finalState (resourceAccountSubscriptionRead meta st)))
    !! key
  = stringAttrs (data st) !! key.
Proof.
  intros Hkey. destruct (read_cases meta st); simpl; try done.
  by apply lookup_readAttrs_other.
Qed.

(** X3: Read changes nothing but the id and the five attributes it
    writes: the new-resource mark, the list attributes, the timeouts and
    every other string attribute are as before, also when Read panics;
    and the id is either kept or, on a resource that is not new, cleared. *)
Theorem X3_read_frame meta st :
  let st' := finalState (resourceAccountSubscriptionRead meta st) in
  IsNewResource (data st') = IsNewResource (data st)
  ∧ listAttrs (data st') = listAttrs (data st)
  ∧ Timeout (data st') = Timeout (data st)
  ∧ (∀ key, key ∉ readKeys →
       stringAttrs (data st') !! key = stringAttrs (data st) !! key)
  ∧ (Id (data st') = Id (data st)
     ∨ (Id (data st') = "" ∧ IsNewResource (data st) = false)).
Proof.
  destruct (read_cases meta st); simpl; split_and!; auto.
  intros key Hkey. by apply lookup_readAttrs_other.
Qed.

(** X4: when the fetch succeeds, on a resource that is new or whose
    fetched status is not UNSUBSCRIBED, Read returns no diagnostic, keeps
    the id, and afterwards the five attributes read back what was fetched
    (the empty string for a field the service left out). *)
Theorem X4_read_stores_fetched meta st info :
  returned (findAccountSubscriptionByID (QuickSightClient meta)
              (Id (data st)) st) = Some (Some info, None) →
  IsNewResource (data st) = true
  ∨ aws_ToString (AccountSubscriptionStatus info) ≠ statusUnsuscribed →
  ∃ st',
    resourceAccountSubscriptionRead meta st = Returned [] st'
    ∧ Id (data st') = Id (data st)
    ∧ GetString (data st') "account_name" = aws_ToString (AccountName info)
    ∧ GetString (data st') "edition" = Edition info
    ∧ GetString (data st') "notification_email"
      = aws_ToString (NotificationEmail info)
    ∧ GetString (data st') "account_subscription_status"
      = aws_ToString (AccountSubscriptionStatus info)
    ∧ GetString (data st') "iam_identity_center_instance_arn"
      = aws_ToString (IAMIdentityCenterInstanceArn info).
Proof.
  intros Hfind Hok. rewrite (read_success meta st info Hfind Hok).
  eexists. split; [done|]. unfold GetString. simpl.
  rewrite !lookup_readAttrs. done.
Qed.

Lemma X4_witness :
  ∃ st',
    resourceAccountSubscriptionRead (exampleMeta (λ _, found statusOk))
      existing = Returned [] st'
    ∧ Id (data st') = "111122223333"
    ∧ GetString (data st') "account_name" = "acme"
    ∧ GetString (data st') "edition" = "ENTERPRISE"
    ∧ GetString (data st') "notification_email" = "a@b.com"
    ∧ GetString (data st') "account_subscription_status" = "OK"
    ∧ GetString (data st') "iam_identity_center_instance_arn" = "".
Proof.
  apply (X4_read_stores_fetched (exampleMeta (λ _, found statusOk)) existing
           (exampleInfo (Some statusOk))).
  - reflexivity.
  - right. discriminate.
Defined.

(** X5: on a resource that is being created Read never panics and never
    changes the id, whatever the service answers. *)
Theorem X5_read_new_is_safe meta st :
  IsNewResource (data st) = true →
  ∃ diags st',
    resourceAccountSubscriptionRead meta st = Returned diags st'
    ∧ Id (data st') = Id (data st).
Proof.
  intros Hnew. destruct (read_cases meta st); try congruence; eauto.
Qed.

Lemma X5_witness :
  ∃ diags st',
    resourceAccountSubscriptionRead deniedMeta (withId fresh "111122223333")
    = Returned diags st'
    ∧ Id (data st') = "111122223333".
Proof.
  apply (X5_read_new_is_safe deniedMeta (withId fresh "111122223333")).
  reflexivity.
Defined.

(** X6: on a resource that is not new, a describe call that reports the
    resource-not-found fault makes Read clear the id and return no
    diagnostic; the attributes stay as they were, and the trace gains the
    describe call and one log line. *)
Theorem X6_read_existing_gone meta st out msg :
  IsNewResource (data st) = false →
  DescribeAccountSubscription (QuickSightClient meta)
    (describeCount (trace st)) {| describe_AwsAccountId := Some (Id (data st)) |}
  = (out, Some (ResourceNotFoundException msg)) →
  resourceAccountSubscriptionRead meta st
  = Returned []
      (withId
         (logged st
            [describeOf (Id (data st));
             LogPrintf ("[WARN] QuickSight AccountSubscription ("
                          +:+ Id (data st)
                          +:+ ") not found, removing from state")]) "").
Proof.
  intros Hnew Hd.
  apply (read_existing_not_found meta st None
           (Some (NotFoundError (Some (ResourceNotFoundException msg))
                    (Some (Id (data st))) 0))); [done| |done].
  unfold findAccountSubscriptionByID. run. unfold aws_String. by rewrite Hd.
Qed.

Lemma X6_witness :
  resourceAccountSubscriptionRead
    (exampleMeta (λ _, (None, Some (ResourceNotFoundException "gone"))))
    existing
  = Returned []
      (withId
         (logged existing
            [describeOf "111122223333";
             LogPrintf ("[WARN] QuickSight AccountSubscription ("
                          +:+ "111122223333"
                          +:+ ") not found, removing from state")]) "").
Proof.
  apply (X6_read_existing_gone
           (exampleMeta (λ _, (None, Some (ResourceNotFoundException "gone"))))
           existing None "gone"); reflexivity.
Defined.

(** X7: reading again changes nothing when the second fetch returns what
    the first one returned: the resource data after the second read is the
    resource data after the first. *)
Theorem X7_read_twice meta st info st1 :
  returned (findAccountSubscriptionByID (QuickSightClient meta)
              (Id (data st)) st) = Some (Some info, None) →
  IsNewResource (data st) = true
  ∨ aws_ToString (AccountSubscriptionStatus info) ≠ statusUnsuscribed →
  st1 = finalState (resourceAccountSubscriptionRead meta st) →
  returned (findAccountSubscriptionByID (QuickSightClient meta)
              (Id (data st1)) st1) = Some (Some info, None) →
  data (finalState (resourceAccountSubscriptionRead meta st1)) = data st1.
Proof.
  intros Hfind Hok -> Hfind1.
  rewrite (read_success meta st info Hfind Hok) in *. simpl in *.
  rewrite (read_success meta _ info Hfind1 Hok). simpl.
  f_equal. apply map_eq. intros key. rewrite !lookup_readAttrs.
  by repeat case_decide.
Qed.

Lemma X7_witness :
  data (finalState
          (resourceAccountSubscriptionRead (exampleMeta (λ _, found statusOk))
             (finalState
                (resourceAccountSubscriptionRead
                   (exampleMeta (λ _, found statusOk)) existing))))
  = data (finalState
            (resourceAccountSubscriptionRead
               (exampleMeta (λ _, found statusOk)) existing)).
Proof.
  apply (X7_read_twice (exampleMeta (λ _, found statusOk)) existing
           (exampleInfo (Some statusOk))).
  - reflexivity.
  - right. discriminate.
  - reflexivity.
  - reflexivity.
Defined.

Lemma X3_witness :
  stringAttrs
    (data (finalState
             (resourceAccountSubscriptionRead
                (exampleMeta (λ _, found statusOk)) existing)))
    !! "authentication_method"
  = Some "IAM_IDENTITY_CENTER".
Proof.
  destruct (X3_read_frame (exampleMeta (λ _, found statusOk)) existing)
    as (_ & _ & _ & Hkeys & _).
  rewrite Hkeys; [reflexivity|]. optional.
Defined.

(** ** The two waits: pending observations *)

Lemma delete_pending conn id timeout st i :
  (∃ info s,
     observes conn id st i (Some info, s, None)
     ∧ s ∈ [statusCreated; statusOk; statusUnsuscribeInProgress]) →
  observesPending conn id (deleteConfFilled conn id timeout) st i.
Proof.
  intros (info & s & Ho & Hs). exists info, s. split_and!; [done| |done].
  fields. intros Ht. apply list_elem_of_singleton in Ht as ->.
  by apply delete_target_not_pending.
Qed.

Lemma create_pending conn id timeout st i :
  (∃ info, observes conn id st i
             (Some info, statusSignupAttemptInProgress, None)) →
  observesPending conn id (createConf conn id timeout) st i.
Proof.
  intros (info & Ho). exists info, statusSignupAttemptInProgress.
  split_and!; [done|computed|computed].
Qed.

Lemma delete_wait_pending_then_gone conn id timeout st k info :
  k + 1 ≤ timeout →
  (∀ i, i < k →
     ∃ info' s,
       observes conn id st i (Some info', s, None)
       ∧ s ∈ [statusCreated; statusOk; statusUnsuscribeInProgress]) →
  observes conn id st k (Some info, statusUnsuscribed, None) →
  waitAccountSubscriptionDeleted conn id timeout st
  = Returned (Some info, None) (polled st id (k + 1)).
Proof.
  intros Ht Hp Ho. rewrite wait_deleted_poll.
  replace timeout with (k + S (timeout - k - 1)) at 2 by lia.
  rewrite (poll_pending_run conn id (deleteConfFilled conn id timeout) eq_refl
             (delete_nodup conn id timeout) (delete_target conn id timeout))
    by (intros i Hi; apply delete_pending, Hp, Hi).
  rewrite (delete_step _ _ _ _ _ _ _ _ _ _ (observes_at _ _ _ _ _ Ho)).
  rewrite bool_decide_eq_true_2 by done.
  rewrite bool_decide_eq_true_2 by (destruct k; lia).
  by rewrite polled_polled.
Qed.

Lemma create_wait_pending_then_created conn id timeout st k info1 s1 info2 s2 :
  k + 2 ≤ timeout →
  (∀ i, i < k →
     ∃ info, observes conn id st i
               (Some info, statusSignupAttemptInProgress, None)) →
  observes conn id st k (Some info1, s1, None) →
  s1 ∈ [statusCreated; statusOk] →
  observes conn id st (S k) (Some info2, s2, None) →
  s2 ∈ [statusCreated; statusOk] →
  waitAccountSubscriptionCreated conn id timeout st
  = Returned (Some info2, None) (polled st id (k + 2)).
Proof.
  intros Ht Hp Ho1 Hs1 Ho2 Hs2. rewrite wait_created_poll.
  replace timeout with (k + S (S (timeout - k - 2))) at 2 by lia.
  rewrite (poll_pending_run conn id (createConf conn id timeout) eq_refl
             (create_nodup conn id timeout) (create_target conn id timeout))
    by (intros i Hi; apply create_pending, Hp, Hi).
  replace (match k with 0 => 0 | S _ => 0 end) with 0 by (by destruct k).
  rewrite (create_two_targets _ _ _ _ _ _ info1 s1 info2 s2);
    [by rewrite polled_polled|by apply observes_at|done| |done].
  apply observes_shift. by replace (k + 1) with (S k) by lia.
Qed.

(** ** Delete: further properties *)

(** Where Delete ends: after its log line and its call, and after the
    describe calls of the wait, if there is one. *)
Lemma delete_final meta st :
  ∃ k, k ≤ Timeout (data st) TimeoutDelete
       ∧ finalState (resourceAccountSubscriptionDelete meta st)
         = polled
             (logged st
                [LogPrintf ("[INFO] Deleting QuickSight AccountSubscription "
                              +:+ Id (data st));
                 DeleteCall {| delete_AwsAccountId := Some (Id (data st)) |}])
             (Id (data st)) k.
Proof.
  rewrite delete_call. simpl.
  set (st1 := logged st _).
  assert (∃ k, k ≤ Timeout (data st) TimeoutDelete
               ∧ st1 = polled st1 (Id (data st)) k) as Hzero.
  { exists 0. split; [lia|]. by rewrite polled_0. }
  destruct (IsA_ResourceNotFoundException _); [done|].
  destruct (DeleteAccountSubscription _ _).2 as [e|]; [done|].
  destruct (wait_deleted_state (QuickSightClient meta) (Id (data st))
              (Timeout (data st) TimeoutDelete) st1) as (k & Hk & _ & E).
  exists k. split; [done|].
  destruct (waitAccountSubscriptionDeleted _ _ _ _) as [[? [?|]] ?|?]; done.
Qed.

(** X8: when the delete call fails with an error that is not the
    resource-not-found fault, Delete returns one delete error with that
    error and stops: no describe call follows. *)
Theorem X8_delete_other_error meta st out e :
  DeleteAccountSubscription (QuickSightClient meta)
    {| delete_AwsAccountId := Some (Id (data st)) |} = (out, Some e) →
  IsA_ResourceNotFoundException (Some e) = false →
  resourceAccountSubscriptionDelete meta st
  = Returned [DeleteError (Id (data st)) e]
      (logged st
         [LogPrintf ("[INFO] Deleting QuickSight AccountSubscription "
                       +:+ Id (data st));
          DeleteCall {| delete_AwsAccountId := Some (Id (data st)) |}]).
Proof.
  intros Hd Hnf. rewrite delete_call, Hd. simpl.
  simpl in Hnf. by rewrite Hnf.
Qed.

Lemma X8_witness :
  resourceAccountSubscriptionDelete
    {| AccountID := "111122223333";
       QuickSightClient :=
         {| CreateAccountSubscription := λ _, signedUp;
            DescribeAccountSubscription := λ _ _, found statusOk;
            DeleteAccountSubscription := λ _, (None, Some accessDenied) |} |}
    existing
  = Returned [DeleteError "111122223333" accessDenied]
      (logged existing
         [LogPrintf
            "[INFO] Deleting QuickSight AccountSubscription 111122223333";
          DeleteCall {| delete_AwsAccountId := Some "111122223333" |}]).
Proof.
  apply (X8_delete_other_error _ existing None accessDenied); reflexivity.
Defined.

(** X9: Delete never changes the resource data: the id and the attributes
    are as before however Delete ends. *)
Theorem X9_delete_keeps_data meta st :
  data (finalState (resourceAccountSubscriptionDelete meta st)) = data st.
Proof. destruct (delete_final meta st) as (k & _ & ->). done. Qed.

(** X10: the remote calls of Delete are one delete call for the id of the
    resource and, after it, describe calls for the same id only, no more
    of them than the timeout allows refreshes. *)
Theorem X10_delete_remote_calls meta st :
  ∃ k, k ≤ Timeout (data st) TimeoutDelete
       ∧ remoteCalls
           (trace (finalState (resourceAccountSubscriptionDelete meta st)))
         = remoteCalls (trace st)
             ++ DeleteCall {| delete_AwsAccountId := Some (Id (data st)) |}
                :: replicate k (describeOf (Id (data st))).
Proof.
  destruct (delete_final meta st) as (k & Hk & ->). exists k.
  split; [done|]. simpl.
  rewrite !remoteCalls_app, remoteCalls_replicate_describe.
  by rewrite <- app_assoc.
Qed.

(** X11: when the delete call goes through, Delete ends as the wait for
    the unsubscribed status ends: with the wait error around the error of
    the wait, or with no diagnostic. *)
Theorem X11_delete_wait_outcome meta st out r err st2 :
  DeleteAccountSubscription (QuickSightClient meta)
    {| delete_AwsAccountId := Some (Id (data st)) |} = (out, None) →
  waitAccountSubscriptionDeleted (QuickSightClient meta) (Id (data st))
    (Timeout (data st) TimeoutDelete)
    (logged st
       [LogPrintf ("[INFO] Deleting QuickSight AccountSubscription "
                     +:+ Id (data st));
        DeleteCall {| delete_AwsAccountId := Some (Id (data st)) |}])
  = Returned (r, err) st2 →
  resourceAccountSubscriptionDelete meta st
  = Returned
      match err with
      | Some e => [DeleteWaitError (Id (data st)) e]
      | None => []
      end st2.
Proof.
  intros Hd Hw. rewrite delete_call, Hd. simpl. rewrite Hw.
  by destruct err.
Qed.

Lemma X11_witness :
  resourceAccountSubscriptionDelete deniedMeta existing
  = Returned [DeleteWaitError "111122223333" accessDenied]
      (polled
         (logged existing
            [LogPrintf
               "[INFO] Deleting QuickSight AccountSubscription 111122223333";
             DeleteCall {| delete_AwsAccountId := Some "111122223333" |}])
         "111122223333" 1).
Proof.
  apply (X11_delete_wait_outcome deniedMeta existing
           (Some {| delete_RequestId := None |}) None (Some accessDenied)).
  - reflexivity.
  - vm_compute. reflexivity.
Defined.

(** X12: when the delete call goes through and the subscription is then
    seen in the statuses ACCOUNT_CREATED, OK or UNSUBSCRIBE_IN_PROGRESS any
    number of times and in UNSUBSCRIBED after that, within the timeout,
    Delete returns no diagnostic right after that refresh. *)
Theorem X12_delete_waits_through_pending meta st out k info :
  DeleteAccountSubscription (QuickSightClient meta)
    {| delete_AwsAccountId := Some (Id (data st)) |} = (out, None) →
  k + 1 ≤ Timeout (data st) TimeoutDelete →
  (∀ i, i < k →
     ∃ info' s,
       observes (QuickSightClient meta) (Id (data st))
         (logged st
            [LogPrintf ("[INFO] Deleting QuickSight AccountSubscription "
                          +:+ Id (data st));
             DeleteCall {| delete_AwsAccountId := Some (Id (data st)) |}])
         i (Some info', s, None)
       ∧ s ∈ [statusCreated; statusOk; statusUnsuscribeInProgress]) →
  observes (QuickSightClient meta) (Id (data st))
    (logged st
       [LogPrintf ("[INFO] Deleting QuickSight AccountSubscription "
                     +:+ Id (data st));
        DeleteCall {| delete_AwsAccountId := Some (Id (data st)) |}])
    k (Some info, statusUnsuscribed, None) →
  resourceAccountSubscriptionDelete meta st
  = Returned []
      (polled
         (logged st
            [LogPrintf ("[INFO] Deleting QuickSight AccountSubscription "
                          +:+ Id (data st));
             DeleteCall {| delete_AwsAccountId := Some (Id (data st)) |}])
         (Id (data st)) (k + 1)).
Proof.
  intros Hd Ht Hp Ho. rewrite delete_call, Hd. simpl.
  by rewrite (delete_wait_pending_then_gone _ _ _ _ k info Ht Hp Ho).
Qed.

Lemma X12_witness :
  resourceAccountSubscriptionDelete
    (exampleMeta (λ n, match n with
                       | 0 => found statusOk
                       | 1 => found statusUnsuscribeInProgress
                       | _ => found statusUnsuscribed
                       end))
    existing
  = Returned []
      (polled
         (logged existing
            [LogPrintf
               "[INFO] Deleting QuickSight AccountSubscription 111122223333";
             DeleteCall {| delete_AwsAccountId := Some "111122223333" |}])
         "111122223333" 3).
Proof.
  apply (X12_delete_waits_through_pending _ existing
           (Some {| delete_RequestId := None |}) 2
           (exampleInfo (Some statusUnsuscribed))).
  - reflexivity.
  - vm_compute. lia.
  - intros [|[|i]] Hi; [| |lia].
    + exists (exampleInfo (Some statusOk)), statusOk.
      split; [reflexivity|set_solver].
    + exists (exampleInfo (Some statusUnsuscribeInProgress)),
        statusUnsuscribeInProgress.
      split; [reflexivity|set_solver].
  - reflexivity.
Defined.

(** ** Create: further properties *)

Lemma optString_Some d key v :
  optString d key = Some v ↔ stringAttrs d !! key = Some v ∧ v ≠ "".
Proof.
  unfold optString, GetOkString, GetString, aws_String.
  destruct (stringAttrs d !! key) as [s|]; cbn [default from_option id];
    case_bool_decide as Hs.
  - split; [by intros [= ->]|by intros [[= ->] _]].
  - split; [by intros [=]|]. intros [[= ->] Hv]. by destruct Hs.
  - done.
  - split; [by intros [=]|by intros [[=] _]].
Qed.

Lemma optList_Some d key l :
  optList d key = Some l
  ↔ ∃ configured,
      listAttrs d !! key = Some configured ∧ configured ≠ []
      ∧ l = flex_ExpandStringValueList configured.
Proof.
  unfold optList, GetOkList.
  destruct (listAttrs d !! key) as [l'|]; cbn [default from_option id];
    case_bool_decide as Hl; cbn [andb].
  - case_bool_decide as Hn.
    + split; [intros [= <-]; by exists l'|].
      by intros (configured & [= <-] & _ & ->).
    + destruct l'; [done|]. simpl in Hn. lia.
  - split; [by intros [=]|].
    intros (configured & [= <-] & Hv & _). by destruct Hl.
  - done.
  - split; [by intros [=]|by intros (configured & [=] & _)].
Qed.

Lemma expanded_not_empty configured :
  "" ∉ flex_ExpandStringValueList configured.
Proof.
  unfold flex_ExpandStringValueList. intros [Hne _]%list_elem_of_filter.
  by destruct Hne.
Qed.

(** X13: whatever the configuration, the create request never carries an
    empty string in an optional field: an optional string field is nil
    rather than empty, and no element of a group list is empty. *)
Theorem X13_create_never_sends_empty d meta :
  Forall (λ p, p.2 (createInput d meta) ≠ Some "") optionalStrings
  ∧ Forall (λ p, ∀ l, p.2 (createInput d meta) = Some l → "" ∉ l)
      optionalLists.
Proof.
  split.
  - repeat constructor; simpl; intros [_ H]%optString_Some; by destruct H.
  - repeat constructor; simpl;
      intros l (configured & _ & _ & ->)%optList_Some;
      apply expanded_not_empty.
Qed.

(** X14: an optional string field of the create request holds a value
    exactly when the configuration sets its attribute to that value and
    the value is not empty; a group field of the request holds a list
    exactly when the configuration sets its attribute to a list with an
    element, and the list it holds is the configured one without its
    empty strings (so it is empty when all of them are). *)
Theorem X14_create_sends_configured d meta :
  (∀ key field v,
     (key, field) ∈ optionalStrings →
     field (createInput d meta) = Some v
     ↔ stringAttrs d !! key = Some v ∧ v ≠ "")
  ∧ (∀ key field l,
       (key, field) ∈ optionalLists →
       field (createInput d meta) = Some l
       ↔ ∃ configured,
           listAttrs d !! key = Some configured ∧ configured ≠ []
           ∧ l = filter (λ v, v ≠ "") configured).
Proof.
  split.
  - intros key field v Hin. unfold optionalStrings in Hin.
    rewrite !elem_of_cons, elem_of_nil in Hin.
    destruct_or!; simplify_eq; try done; apply optString_Some.
  - intros key field l Hin. unfold optionalLists in Hin.
    rewrite !elem_of_cons, elem_of_nil in Hin.
    destruct_or!; simplify_eq; try done; apply optList_Some.
Qed.

Lemma X14_witness :
  in_ContactNumber (createInput withOptions (exampleMeta (λ _, found statusOk)))
  = Some "5550100"
  ∧ in_AdminGroup (createInput withOptions (exampleMeta (λ _, found statusOk)))
    = Some ["admins"; "owners"]
  ∧ in_ReaderGroup (createInput withOptions (exampleMeta (λ _, found statusOk)))
    = Some [].
Proof.
  destruct (X14_create_sends_configured withOptions
              (exampleMeta (λ _, found statusOk))) as [Hs Hl].
  split_and!.
  - apply (Hs "contact_number").
    + unfold optionalStrings. rewrite !elem_of_cons. auto.
    + split; [reflexivity|discriminate].
  - apply (Hl "admin_group").
    + unfold optionalLists. rewrite !elem_of_cons. auto.
    + exists ["admins"; ""; "owners"].
      split_and!; [reflexivity|discriminate|reflexivity].
  - apply (Hl "reader_group").
    + unfold optionalLists. rewrite !elem_of_cons. auto 6.
    + exists [""]. split_and!; [reflexivity|discriminate|reflexivity].
Defined.

(** Where Create ends once the signup payload is there: after the describe
    calls of the wait and, if the wait succeeded, the one of the
    read-back. *)
Lemma after_signup_calls meta st1 acc :
  ∃ k, k ≤ S (Timeout (data st1) TimeoutCreate)
       ∧ remoteCalls (trace (finalState (afterSignup meta st1 acc)))
         = remoteCalls (trace st1) ++ replicate k (describeOf acc).
Proof.
  unfold afterSignup.
  destruct (wait_created_state (QuickSightClient meta) acc
              (Timeout (data st1) TimeoutCreate) (withId st1 acc))
    as (k & Hk & _ & E).
  assert (remoteCalls (trace (polled (withId st1 acc) acc k))
          = remoteCalls (trace st1) ++ replicate k (describeOf acc)) as Ek
    by (simpl; by rewrite remoteCalls_app, remoteCalls_replicate_describe).
  destruct (waitAccountSubscriptionCreated _ _ _ _) as [[? [?|]] st3|st3];
    simpl in E; subst st3.
  - exists k. split; [lia|done].
  - exists (S k). split; [lia|]. rewrite read_calls, Ek.
    rewrite <- app_assoc. f_equal. simpl Id.
    change (describeOf acc :: replicate k (describeOf acc))
      with (replicate (S k) (describeOf acc)).
    by rewrite replicate_S_end.
  - exists k. split; [lia|done].
Qed.

(** X15: when the create call has returned a signup payload and the wait
    for the created status then fails, Create returns the wait error, and
    the resource keeps the account id as its id; the attributes are as
    they were. *)
Theorem X15_create_wait_failure_keeps_id meta st out r e st3 :
  CreateAccountSubscription (QuickSightClient meta)
    (createInput (data st) meta) = (out, None) →
  emptyOutput out = false →
  waitAccountSubscriptionCreated (QuickSightClient meta)
    (createAccountID (data st) meta) (Timeout (data st) TimeoutCreate)
    (withId (logged st [CreateCall (createInput (data st) meta)])
       (createAccountID (data st) meta))
  = Returned (r, Some e) st3 →
  resourceAccountSubscriptionCreate meta st
  = Returned [CreateWaitError (createAccountID (data st) meta) e] st3
  ∧ Id (data st3) = createAccountID (data st) meta
  ∧ stringAttrs (data st3) = stringAttrs (data st)
  ∧ listAttrs (data st3) = listAttrs (data st).
Proof.
  intros Hc He Hw. split.
  - rewrite create_call. simpl. rewrite Hc, He. unfold afterSignup. simpl.
    by rewrite Hw.
  - destruct (wait_created_state (QuickSightClient meta)
                (createAccountID (data st) meta)
                (Timeout (data st) TimeoutCreate)
                (withId (logged st [CreateCall (createInput (data st) meta)])
                   (createAccountID (data st) meta)))
      as (k & _ & _ & E).
    rewrite Hw in E. simpl in E. by subst st3.
Qed.

Lemma X15_witness :
  resourceAccountSubscriptionCreate deniedMeta fresh
  = Returned [CreateWaitError "111122223333" accessDenied]
      (polled
         (withId
            (logged fresh [CreateCall (createInput (data fresh) deniedMeta)])
            "111122223333")
         "111122223333" 1)
  ∧ Id (data (polled
                (withId
                   (logged fresh
                      [CreateCall (createInput (data fresh) deniedMeta)])
                   "111122223333")
                "111122223333" 1))
    = "111122223333"
  ∧ stringAttrs
      (data (polled
               (withId
                  (logged fresh
                     [CreateCall (createInput (data fresh) deniedMeta)])
                  "111122223333")
               "111122223333" 1))
    = stringAttrs (data fresh)
  ∧ listAttrs
      (data (polled
               (withId
                  (logged fresh
                     [CreateCall (createInput (data fresh) deniedMeta)])
                  "111122223333")
               "111122223333" 1))
    = listAttrs (data fresh).
Proof.
  apply (X15_create_wait_failure_keeps_id deniedMeta fresh
           (Some {| create_SignupResponse :=
                      Some {| signup_accountName := Some "acme" |} |})
           None accessDenied).
  - reflexivity.
  - reflexivity.
  - vm_compute. reflexivity.
Defined.

(** X16: when the create call has returned a signup payload, the wait has
    succeeded and the read-back fetches the subscription (on a resource
    marked new, or in a status other than UNSUBSCRIBED), Create returns no
    diagnostic, the id is the account id, and the five attributes Read
    writes hold what was fetched. *)
Theorem X16_create_success_stores meta st out r st3 info :
  CreateAccountSubscription (QuickSightClient meta)
    (createInput (data st) meta) = (out, None) →
  emptyOutput out = false →
  waitAccountSubscriptionCreated (QuickSightClient meta)
    (createAccountID (data st) meta) (Timeout (data st) TimeoutCreate)
    (withId (logged st [CreateCall (createInput (data st) meta)])
       (createAccountID (data st) meta))
  = Returned (r, None) st3 →
  returned (findAccountSubscriptionByID (QuickSightClient meta)
              (createAccountID (data st) meta) st3)
  = Some (Some info, None) →
  IsNewResource (data st) = true
  ∨ aws_ToString (AccountSubscriptionStatus info) ≠ statusUnsuscribed →
  ∃ st',
    resourceAccountSubscriptionCreate meta st = Returned [] st'
    ∧ Id (data st') = createAccountID (data st) meta
    ∧ GetString (data st') "account_name" = aws_ToString (AccountName info)
    ∧ GetString (data st') "edition" = Edition info
    ∧ GetString (data st') "notification_email"
      = aws_ToString (NotificationEmail info)
    ∧ GetString (data st') "account_subscription_status"
      = aws_ToString (AccountSubscriptionStatus info)
    ∧ GetString (data st') "iam_identity_center_instance_arn"
      = aws_ToString (IAMIdentityCenterInstanceArn info).
Proof.
  intros Hc He Hw Hfind Hok.
  destruct (wait_created_state (QuickSightClient meta)
              (createAccountID (data st) meta)
              (Timeout (data st) TimeoutCreate)
              (withId (logged st [CreateCall (createInput (data st) meta)])
                 (createAccountID (data st) meta)))
    as (k & _ & _ & E).
  rewrite Hw in E. simpl in E.
  assert (Id (data st3) = createAccountID (data st) meta) as Hid
    by (by subst st3).
  assert (IsNewResource (data st3) = IsNewResource (data st)) as Hnew
    by (by subst st3).
  rewrite create_call. simpl. rewrite Hc, He. unfold afterSignup. simpl.
  rewrite Hw. rewrite <- Hid in Hfind.
  rewrite (read_success meta st3 info Hfind) by (by rewrite Hnew).
  eexists. split; [done|]. unfold GetString. simpl.
  rewrite !lookup_readAttrs. done.
Qed.

(** X16 on the scenario: in progress twice, created twice, and the
    read-back finds the created subscription. *)
Lemma X16_witness :
  ∃ st',
    resourceAccountSubscriptionCreate
      (exampleMeta (λ n, match n with
                         | 0 | 1 => found statusSignupAttemptInProgress
                         | _ => found statusCreated
                         end))
      fresh
    = Returned [] st'
    ∧ Id (data st') = "111122223333"
    ∧ GetString (data st') "account_name" = "acme"
    ∧ GetString (data st') "edition" = "ENTERPRISE"
    ∧ GetString (data st') "notification_email" = "a@b.com"
    ∧ GetString (data st') "account_subscription_status" = "ACCOUNT_CREATED"
    ∧ GetString (data st') "iam_identity_center_instance_arn" = "".
Proof.
  apply (X16_create_success_stores
           (exampleMeta (λ n, match n with
                              | 0 | 1 => found statusSignupAttemptInProgress
                              | _ => found statusCreated
                              end))
           fresh
           (Some {| create_SignupResponse :=
                      Some {| signup_accountName := Some "acme" |} |})
           (Some (exampleInfo (Some statusCreated)))
           (polled
              (withId
                 (logged fresh
                    [CreateCall
                       (createInput (data fresh)
                          (exampleMeta (λ _, found statusOk)))])
                 "111122223333")
              "111122223333" 4)
           (exampleInfo (Some statusCreated))).
  - reflexivity.
  - reflexivity.
  - vm_compute. reflexivity.
  - reflexivity.
  - left. reflexivity.
Defined.

(** X17: the remote calls of Create are one create call with the request
    built from the configuration and, after it, describe calls for the
    account id only (those of the wait and the one of the read-back);
    Create never makes a delete call. *)
Theorem X17_create_remote_calls meta st :
  ∃ k, k ≤ S (Timeout (data st) TimeoutCreate)
       ∧ remoteCalls
           (trace (finalState (resourceAccountSubscriptionCreate meta st)))
         = remoteCalls (trace st)
             ++ CreateCall (createInput (data st) meta)
                :: replicate k (describeOf (createAccountID (data st) meta)).
Proof.
  rewrite create_call. cbv zeta.
  assert (remoteCalls
            (trace (logged st [CreateCall (createInput (data st) meta)]))
          = remoteCalls (trace st)
              ++ [CreateCall (createInput (data st) meta)]) as E1
    by (simpl; by rewrite remoteCalls_app).
  destruct (CreateAccountSubscription _ _) as [out [e|]].
  { exists 0. split; [lia|]. cbn [finalState]. by rewrite E1. }
  destruct (emptyOutput out).
  { exists 0. split; [lia|]. cbn [finalState]. by rewrite E1. }
  destruct (after_signup_calls meta
              (logged st [CreateCall (createInput (data st) meta)])
              (createAccountID (data st) meta)) as (k & Hk & E).
  exists k. split; [done|]. rewrite E, E1. by rewrite <- app_assoc.
Qed.

(** ** The schema *)

(** Deciding a statement about the whole schema by running through its
    entries. *)
Ltac by_table :=
  match goal with
  | |- ?P => apply (@bool_decide_unpack P _); vm_compute; exact I
  end.

Lemma declared_string_keys key :
  key ∈ readKeys ∨ key ∈ optionalStrings.*1
  ∨ key ∈ ["account_name"; "authentication_method"; "edition";
           "notification_email"; names_AttrAWSAccountID] →
  declared schema.TypeString key.
Proof.
  unfold readKeys, optionalStrings, declared. simpl.
  rewrite !elem_of_cons, !elem_of_nil.
  intros H. destruct_or!; subst; try done; eexists; split; reflexivity.
Qed.

Lemma declared_list_keys key :
  key ∈ optionalLists.*1 → declared schema.TypeList key.
Proof.
  unfold optionalLists, declared. simpl.
  rewrite !elem_of_cons, !elem_of_nil.
  intros H. destruct_or!; subst; try done; eexists; split; reflexivity.
Qed.

(** X18: the create request and the account id depend on the
    configuration only through attributes that the schema declares, each
    read at its declared type: two configurations that agree on the
    declared attributes give the same request. *)
Theorem X18_create_reads_declared d d' meta :
  (∀ key, declared schema.TypeString key →
     stringAttrs d !! key = stringAttrs d' !! key) →
  (∀ key, declared schema.TypeList key →
     listAttrs d !! key = listAttrs d' !! key) →
  createInput d meta = createInput d' meta
  ∧ createAccountID d meta = createAccountID d' meta.
Proof.
  intros Hs Hl.
  assert (∀ key,
    key ∈ optionalStrings.*1
    ∨ key ∈ ["account_name"; "authentication_method"; "edition";
             "notification_email"; names_AttrAWSAccountID] →
    GetString d key = GetString d' key) as Hget.
  { intros key Hkey. unfold GetString. rewrite Hs; [done|].
    apply declared_string_keys. tauto. }
  assert (createAccountID d meta = createAccountID d' meta) as Hid.
  { unfold createAccountID, GetOkString. rewrite Hget; [done|].
    right. unfold names_AttrAWSAccountID. set_solver. }
  split; [|done].
  assert (∀ key, key ∈ optionalStrings.*1 →
            optString d key = optString d' key) as Hopt.
  { intros key Hkey. unfold optString, GetOkString.
    rewrite Hget by tauto. done. }
  assert (∀ key, key ∈ optionalLists.*1 →
            optList d key = optList d' key) as Hlst.
  { intros key Hkey. unfold optList, GetOkList.
    rewrite Hl by (by apply declared_list_keys). done. }
  unfold createInput. rewrite Hid.
  rewrite !(Hget "account_name"), !(Hget "authentication_method"),
    !(Hget "edition"), !(Hget "notification_email") by (right; set_solver).
  rewrite !(Hopt "active_directory_name"), !(Hopt "contact_number"),
    !(Hopt "directory_id"), !(Hopt "email_address"), !(Hopt "first_name"),
    !(Hopt "iam_identity_center_instance_arn"), !(Hopt "last_name"),
    !(Hopt "realm") by (simpl; set_solver).
  rewrite !(Hlst "admin_group"), !(Hlst "author_group"),
    !(Hlst "reader_group") by (simpl; set_solver).
  done.
Qed.

Lemma X18_witness :
  createInput withUndeclared (exampleMeta (λ _, found statusOk))
  = createInput (data fresh) (exampleMeta (λ _, found statusOk))
  ∧ createAccountID withUndeclared (exampleMeta (λ _, found statusOk))
    = createAccountID (data fresh) (exampleMeta (λ _, found statusOk)).
Proof.
  apply (X18_create_reads_declared withUndeclared (data fresh)).
  - intros key (s & Hs & _). simpl.
    destruct (decide (key = "nickname")) as [->|Hne];
      [vm_compute in Hs; discriminate|].
    by rewrite lookup_insert_ne.
  - intros key (s & Hs & _). simpl.
    destruct (decide (key = "viewer_group")) as [->|Hne];
      [vm_compute in Hs; discriminate|].
    by rewrite lookup_singleton_ne, lookup_empty.
Defined.

(** X19: the resource has no update operation, and its schema fits that:
    every attribute a configuration can set (required or optional) forces
    a new resource when it changes.  Besides, no attribute is both
    required and optional, an attribute that is neither is computed, and
    only list attributes have a minimal number of items. *)
Theorem X19_schema_forces_new :
  schema.UpdateWithoutTimeout resourceAccountSubscription = None
  ∧ ∀ key s,
      schema.SchemaFunc resourceAccountSubscription !! key = Some s →
      fitsNoUpdate s.
Proof.
  split; [done|].
  apply (map_Forall_to_list (λ _, fitsNoUpdate)).
  vm_compute. repeat constructor; try done; intros; try lia; tauto.
Qed.

Lemma X19_witness :
  fitsNoUpdate
    {| schema.Type_ := schema.TypeList; schema.Required := false;
       schema.Optional := true; schema.Computed := false;
       schema.ForceNew := true; schema.MinItems := 1;
       schema.Elem := Some schema.TypeString; schema.Validate := None |}.
Proof.
  destruct X19_schema_forces_new as [_ H].
  apply (H "reader_group"). reflexivity.
Defined.

(** X20: Read changes no string attribute that the schema does not
    declare as a string. *)
Theorem X20_read_writes_declared meta st key :
  ¬ declared schema.TypeString key →
  stringAttrs (data (finalState (resourceAccountSubscriptionRead meta st)))
    !! key
  = stringAttrs (data st) !! key.
Proof.
  intros Hkey. apply read_other_attrs. intros Hin. apply Hkey.
  apply declared_string_keys. by left.
Qed.

Lemma X20_witness :
  stringAttrs
    (data (finalState
             (resourceAccountSubscriptionRead
                (exampleMeta (λ _, found statusOk))
                {| data := withUndeclared; trace := [] |})))
    !! "nickname"
  = Some "acme-bi".
Proof.
  rewrite (X20_read_writes_declared (exampleMeta (λ _, found statusOk))
             {| data := withUndeclared; trace := [] |} "nickname").
  - reflexivity.
  - intros (s & Hs & _). vm_compute in Hs. discriminate.
Defined.

(** ** The finder and the refresh function: further properties *)

(** X21: the finder succeeds exactly when the describe call returned no
    error and an output with account information, and then it returns that
    information; an error that is not the resource-not-found fault is
    passed on as it is, with a nil result, whatever output came with
    it. *)
Theorem X21_find_by_answer conn id st out err :
  DescribeAccountSubscription conn (describeCount (trace st))
    {| describe_AwsAccountId := Some id |} = (out, err) →
  (∀ info,
     returned (findAccountSubscriptionByID conn id st)
     = Some (Some info, None)
     ↔ err = None ∧ out ≫= describe_AccountInfo = Some info)
  ∧ (∀ e, err = Some e →
       IsA_ResourceNotFoundException (Some e) = false →
       returned (findAccountSubscriptionByID conn id st)
       = Some (None, Some e)).
Proof.
  intros Hd. unfold findAccountSubscriptionByID. run. unfold aws_String.
  rewrite Hd. split.
  - intros info. destruct err as [e|].
    + destruct e; simpl; (split; [intros [=]|intros [[=] _]]).
    + destruct out as [o|]; simpl; [destruct (describe_AccountInfo o)|];
        simpl.
      * split; [by intros [= <-]|by intros [_ [= <-]]].
      * split; [intros [=]|intros [_ [=]]].
      * split; [intros [=]|intros [_ [=]]].
  - intros e -> He. simpl in He. by destruct e.
Qed.

Lemma X21_witness :
  (∀ info,
     returned (findAccountSubscriptionByID
                 (scripted (λ _, found statusOk)) "111122223333" existing)
     = Some (Some info, None)
     ↔ (None : option error) = None
       ∧ Some {| describe_AccountInfo := Some (exampleInfo (Some statusOk)) |}
         ≫= describe_AccountInfo = Some info)
  ∧ returned (findAccountSubscriptionByID
                (scripted (λ _, (Some {| describe_AccountInfo := None |},
                                 Some accessDenied)))
                "111122223333" existing)
    = Some (None, Some accessDenied).
Proof.
  split.
  - apply (X21_find_by_answer (scripted (λ _, found statusOk))
             "111122223333" existing). reflexivity.
  - apply (X21_find_by_answer
             (scripted (λ _, (Some {| describe_AccountInfo := None |},
                              Some accessDenied)))
             "111122223333" existing
             (Some {| describe_AccountInfo := None |}) (Some accessDenied));
      reflexivity.
Defined.

(** X22: what the refresh function returns is either a subscription
    together with its own status and no error, or no subscription and the
    empty status; the error it returns is never a not-found error, since
    those are turned into "nothing found, no error". *)
Theorem X22_refresh_shape conn id st res s err :
  returned (statusAccountSubscription conn id st) = Some (res, s, err) →
  NotFound err = false
  ∧ ((∃ info,
        res = Some info ∧ err = None
        ∧ AccountSubscriptionStatus info = Some s)
     ∨ (res = None ∧ s = "")).
Proof.
  unfold statusAccountSubscription. unfold mbind at 1, M_bind at 1.
  destruct (find_returns conn id st) as (r & -> & Hone).
  destruct Hone as [(info & ->)|(e & ->)].
  - run. destruct (AccountSubscriptionStatus info) eqn:Hs; simpl;
      [|discriminate].
    intros ?; simplify_eq. split; [done|]. left. by exists info.
  - destruct e; run; intros ?; simplify_eq; split; auto.
Qed.

Lemma X22_witness :
  NotFound None = false
  ∧ ((∃ info,
        (None : option AccountInfo) = Some info ∧ (None : option error) = None
        ∧ AccountSubscriptionStatus info = Some "")
     ∨ ((None : option AccountInfo) = None ∧ "" = "")).
Proof.
  apply (X22_refresh_shape
           (scripted (λ _, (None, Some (ResourceNotFoundException "gone"))))
           "111122223333" existing None "" None).
  reflexivity.
Defined.

(** ** The two waits: further properties *)

(** X23: a wait does nothing but describe calls for the account it waits
    for, at most as many as the timeout allows refreshes; it leaves the
    resource data alone, however it ends. *)
Theorem X23_waits_only_describe conn id timeout st :
  (∃ k, k ≤ timeout
        ∧ finalState (waitAccountSubscriptionCreated conn id timeout st)
          = polled st id k)
  ∧ (∃ k, k ≤ timeout
          ∧ finalState (waitAccountSubscriptionDeleted conn id timeout st)
            = polled st id k).
Proof.
  split.
  - destruct (wait_created_state conn id timeout st) as (k & ? & _ & ?).
    eauto.
  - destruct (wait_deleted_state conn id timeout st) as (k & ? & _ & ?).
    eauto.
Qed.

(** X24: the create wait waits through any number of refreshes that find
    the subscription in SIGNUP_ATTEMPT_IN_PROGRESS: when two refreshes in
    a row then find it in ACCOUNT_CREATED or OK, within the timeout, the
    wait succeeds right after the second and returns what that one
    found. *)
Theorem X24_create_waits_through_pending
    conn id timeout st k info1 s1 info2 s2 :
  k + 2 ≤ timeout →
  (∀ i, i < k →
     ∃ info, observes conn id st i
               (Some info, statusSignupAttemptInProgress, None)) →
  observes conn id st k (Some info1, s1, None) →
  s1 ∈ [statusCreated; statusOk] →
  observes conn id st (S k) (Some info2, s2, None) →
  s2 ∈ [statusCreated; statusOk] →
  waitAccountSubscriptionCreated conn id timeout st
  = Returned (Some info2, None) (polled st id (k + 2)).
Proof. apply create_wait_pending_then_created. Qed.

(** X24 on the scenario: in progress twice, then created twice. *)
Lemma X24_witness :
  waitAccountSubscriptionCreated
    (scripted (λ n, match n with
                    | 0 | 1 => found statusSignupAttemptInProgress
                    | _ => found statusCreated
                    end))
    "111122223333" 600 existing
  = Returned (Some (exampleInfo (Some statusCreated)), None)
      (polled existing "111122223333" 4).
Proof.
  apply (X24_create_waits_through_pending _ _ 600 existing 2
           (exampleInfo (Some statusCreated)) statusCreated
           _ statusCreated).
  - lia.
  - intros [|[|i]] Hi; [| |lia];
      exists (exampleInfo (Some statusSignupAttemptInProgress)); reflexivity.
  - reflexivity.
  - set_solver.
  - reflexivity.
  - set_solver.
Defined.

(** ** Operations together *)

(** X25: the id that Create gives the resource is the account that a
    later Delete asks the service to unsubscribe: after a create call that
    returned a signup payload, on a resource marked new, the remote calls
    of Delete start with the delete call for the account id Create worked
    with. *)
Theorem X25_delete_after_create meta meta' st out :
  CreateAccountSubscription (QuickSightClient meta)
    (createInput (data st) meta) = (out, None) →
  emptyOutput out = false →
  IsNewResource (data st) = true →
  ∃ k,
    remoteCalls
      (trace (finalState
                (resourceAccountSubscriptionDelete meta'
                   (finalState (resourceAccountSubscriptionCreate meta st)))))
    = remoteCalls
        (trace (finalState (resourceAccountSubscriptionCreate meta st)))
        ++ DeleteCall
             {| delete_AwsAccountId := Some (createAccountID (data st) meta) |}
           :: replicate k (describeOf (createAccountID (data st) meta)).
Proof.
  intros Hc He Hnew.
  destruct (delete_final meta'
              (finalState (resourceAccountSubscriptionCreate meta st)))
    as (k & _ & ->).
  rewrite (create_id meta st out Hc He Hnew). exists k. simpl.
  rewrite !remoteCalls_app, remoteCalls_replicate_describe.
  by rewrite <- app_assoc.
Qed.

Lemma X25_witness :
  ∃ k,
    remoteCalls
      (trace (finalState
                (resourceAccountSubscriptionDelete
                   (exampleMeta (λ _, found statusUnsuscribed))
                   (finalState
                      (resourceAccountSubscriptionCreate
                         (exampleMeta (λ _, found statusOk))
                         explicitAccount)))))
    = remoteCalls
        (trace (finalState
                  (resourceAccountSubscriptionCreate
                     (exampleMeta (λ _, found statusOk)) explicitAccount)))
        ++ DeleteCall {| delete_AwsAccountId := Some "444455556666" |}
           :: replicate k (describeOf "444455556666").
Proof.
  apply (X25_delete_after_create (exampleMeta (λ _, found statusOk))
           (exampleMeta (λ _, found statusUnsuscribed)) explicitAccount
           (Some {| create_SignupResponse :=
                      Some {| signup_accountName := Some "acme" |} |}));
    reflexivity.
Defined.

Lemma read_one_of meta st diags st' :
  resourceAccountSubscriptionRead meta st = Returned diags st' →
  oneOf [ErrActionReading] diags.
Proof.
  intros [->|(e & ->)]%read_diags; [by left|].
  right. eexists. split; [done|]. simpl. set_solver.
Qed.

(** X26: an operation returns at most one diagnostic, and the action it
    names belongs to the operation: creating, waiting for creation or
    reading for Create, reading for Read, deleting or waiting for deletion
    for Delete. *)
Theorem X26_one_diagnostic meta st diags st' :
  (resourceAccountSubscriptionCreate meta st = Returned diags st' →
   oneOf createActions diags)
  ∧ (resourceAccountSubscriptionRead meta st = Returned diags st' →
     oneOf [ErrActionReading] diags)
  ∧ (resourceAccountSubscriptionDelete meta st = Returned diags st' →
     oneOf deleteActions diags).
Proof.
  split_and!.
  - rewrite create_call. cbv zeta.
    destruct (CreateAccountSubscription _ _) as [out [e|]].
    { intros [= <- _]. right. eexists. split; [done|]. simpl.
      unfold createActions. set_solver. }
    destruct (emptyOutput out).
    { intros [= <- _]. right. eexists. split; [done|]. simpl.
      unfold createActions. set_solver. }
    unfold afterSignup.
    destruct (waitAccountSubscriptionCreated _ _ _ _) as [[? [?|]] st3|st3];
      [| |discriminate].
    + intros [= <- _]. right. eexists. split; [done|]. simpl.
      unfold createActions. set_solver.
    + intros [->|(diag & -> & Hd)]%read_one_of; [by left|].
      right. exists diag. split; [done|].
      apply list_elem_of_singleton in Hd as ->.
      unfold createActions. set_solver.
  - apply read_one_of.
  - rewrite delete_call. cbv zeta.
    destruct (IsA_ResourceNotFoundException _); [intros [= <- _]; by left|].
    destruct (DeleteAccountSubscription _ _).2 as [e|].
    { intros [= <- _]. right. eexists. split; [done|]. simpl.
      unfold deleteActions. set_solver. }
    destruct (waitAccountSubscriptionDeleted _ _ _ _) as [[? [?|]] st2|st2];
      [| |discriminate].
    + intros [= <- _]. right. eexists. split; [done|]. simpl.
      unfold deleteActions. set_solver.
    + intros [= <- _]. by left.
Qed.

Lemma X26_witness :
  oneOf createActions [CreateWaitError "111122223333" accessDenied].
Proof.
  destruct (X26_one_diagnostic deniedMeta fresh
              [CreateWaitError "111122223333" accessDenied]
              (polled
                 (withId
                    (logged fresh
                       [CreateCall (createInput (data fresh) deniedMeta)])
                    "111122223333")
                 "111122223333" 1)) as (Hcreate & _ & _).
  apply Hcreate. vm_compute. reflexivity.
Defined.
